(** * Display technology schema of rtings-dashboard: [build_schema.py]

    A shallow embedding of the classification engine of
    [src/build_schema.py]: the left join of the scraper table with the
    spectral (SPD) analysis table, the derived schema columns, and the
    KSF -> Pseudo QD reclassification pass.

    A DataFrame is a list of rows; a row is a record with one field per
    column the engine reads or writes.  A cell holds a Python object
    ([pyval]); numbers are binary64 floats, as in the float64 columns
    [pandas.read_csv] builds, with NaN standing for a missing cell.  A
    column without a missing cell whose numbers are all integers is
    int64 in pandas; its cells are the same numbers here, so integers
    beyond 2^53 that binary64 cannot hold are outside the model.
    A column is numeric (float64) when every cell of it is a float, and
    a column of Python objects as soon as one cell is text.

    The development covers the run up to the output frame (lines
    190-340).  Console reporting and the CSV/XLSX writers are not
    modelled. *)

From Stdlib Require Import ZArith Bool List String Ascii Lia Permutation Sorted.
From Stdlib Require Import Floats.PrimFloat Floats.FloatOps Floats.SpecFloat.
Import ListNotations.

Local Open Scope string_scope.
Local Open Scope list_scope.

(* ===================================================================== *)
(** ** Python values and exceptions *)
(* ===================================================================== *)

(** The objects a cell of the frames can hold. *)
Inductive pyval : Type :=
| PNone                      (* None *)
| PFloat (f : float)         (* float / numpy.float64; NaN is a missing cell *)
| PStr (s : string).         (* str *)

(** [numpy.nan], what pandas stores for a missing value. *)
Definition NaN : pyval := PFloat nan.

Inductive exn : Type := TypeError | ValueError | AttributeError | OverflowError.

Inductive result (A : Type) : Type :=
| Ok (a : A)
| Raise (e : exn).
Arguments Ok {A} a.
Arguments Raise {A} e.

Definition bind {A B : Type} (c : result A) (k : A -> result B) : result B :=
  match c with
  | Ok a => k a
  | Raise e => Raise e
  end.

Declare Scope py_scope.
Delimit Scope py_scope with py.
Notation "x <- c ;; k" := (bind c (fun x => k))
  (at level 61, c at next level, right associativity) : py_scope.
Local Open Scope py_scope.

(** [for x in xs: ... f(x) ...], stopping at the first exception; this is
    what [DataFrame.apply(f, axis=1)] does with a function that raises. *)
Fixpoint mapM {A B : Type} (f : A -> result B) (xs : list A) : result (list B) :=
  match xs with
  | [] => Ok []
  | x :: rest =>
      y <- f x ;;
      ys <- mapM f rest ;;
      Ok (y :: ys)
  end.

(** [a or b] and [a and b] on computations that may raise: the right
    operand is evaluated only when the left one does not decide. *)
Definition orM (a b : result bool) : result bool :=
  x <- a ;; if x then Ok true else b.
Definition andM (a b : result bool) : result bool :=
  x <- a ;; if x then b else Ok false.
Definition notM (a : result bool) : result bool :=
  x <- a ;; Ok (negb x).
Infix "|||" := orM (at level 50, left associativity) : py_scope.
Infix "&&&" := andM (at level 40, left associativity) : py_scope.

(** [v == 'lit'] for a string literal: only a str can be equal to it. *)
Definition py_eq_str (v : pyval) (lit : string) : bool :=
  match v with
  | PStr s => String.eqb s lit
  | _ => false
  end.

(** [v in ('a', 'b', ...)] for a tuple of string literals. *)
Definition py_in (v : pyval) (lits : list string) : bool :=
  existsb (py_eq_str v) lits.

(** [sub in s] on two strings: [sub] occurs in [s]. *)
Fixpoint str_contains (sub s : string) : bool :=
  if String.prefix sub s then true
  else match s with
       | EmptyString => false
       | String _ rest => str_contains sub rest
       end.

(** ['lit' in v]: a substring test on a str; a float or None is not
    iterable and the test raises TypeError. *)
Definition py_contains (lit : string) (v : pyval) : result bool :=
  match v with
  | PStr s => Ok (str_contains lit s)
  | _ => Raise TypeError
  end.

(** [v.startswith('lit')]: only str has the method. *)
Definition py_startswith (v : pyval) (lit : string) : result bool :=
  match v with
  | PStr s => Ok (String.prefix lit s)
  | _ => Raise AttributeError
  end.

(** [bool(v)]: None and the empty string are false, a float is false
    only when it is zero (NaN is true). *)
Definition py_truthy (v : pyval) : bool :=
  match v with
  | PNone => false
  | PFloat f => negb (PrimFloat.eqb f 0)
  | PStr s => negb (String.eqb s "")
  end.

(** [str(v).startswith('ERROR')]: [str] of a float is a decimal numeral,
    "inf" or "nan" (possibly signed) and [str(None)] is "None"; none of
    them begins with the letter E. *)
Definition str_startswith_ERROR (v : pyval) : bool :=
  match v with
  | PStr s => String.prefix "ERROR" s
  | _ => false
  end.

(** [pandas.isna]: None and NaN are the null values of an object column. *)
Definition is_null (v : pyval) : bool :=
  match v with
  | PNone => true
  | PFloat f => PrimFloat.is_nan f
  | PStr _ => false
  end.

(** The integer a binary64 value is equal to, if there is one. *)
Definition float_integer_value (f : float) : option Z :=
  match Prim2SF f with
  | S754_zero _ => Some 0%Z
  | S754_finite sign m e =>
      let mag :=
        if (0 <=? e)%Z then Some (Z.pos m * 2 ^ e)%Z
        else if (Z.pos m mod 2 ^ (- e) =? 0)%Z then Some (Z.pos m / 2 ^ (- e))%Z
        else None in
      option_map (fun z => if sign then (- z)%Z else z) mag
  | S754_infinity _ | S754_nan => None
  end.

Definition int64_min : Z := (- 2 ^ 63)%Z.
Definition int64_max : Z := (2 ^ 63 - 1)%Z.

(* ===================================================================== *)
(** ** The two input tables and the merged frame *)
(* ===================================================================== *)

(** A row of [data/rtings_tv_data.csv] (the specification table S):
    the columns the engine reads, and the remaining scraper columns
    carried along unchanged.  [product_id] is the integer id the
    scraper takes from the review database. *)
Record TvRow : Type := {
  product_id : Z;
  fullname : pyval;
  brand : pyval;
  panel_type : pyval;
  backlight_type : pyval;
  dimming_zone_count : pyval;        (* raw value, before line 210 *)
  other_columns : list (string * pyval)
}.

(** The spectral columns of [spd_cols] other than the join key. *)
Record SpdCols : Type := {
  spd_classification : pyval;
  spd_confidence : pyval;
  ground_truth_tech : pyval;
  ground_truth_qd_type : pyval;
  match_status : pyval;
  blue_peak_nm : pyval;
  blue_fwhm_nm : pyval;
  green_peak_nm : pyval;
  green_fwhm_nm : pyval;
  red_peak_nm : pyval;
  red_fwhm_nm : pyval;
  num_peaks : pyval
}.

(** A row of [spd_df[spd_cols]] (the spectral table P). *)
Record SpdRow : Type := {
  spd_product_id : Z;
  spd_cols :> SpdCols
}.

(** A row of [merged] right after the join (line 190). *)
Record Merged : Type := {
  tv_of :> TvRow;
  spd_of :> SpdCols
}.

(** The spectral columns of a specification row without a match. *)
Definition null_spd : SpdCols := {|
  spd_classification := NaN;
  spd_confidence := NaN;
  ground_truth_tech := NaN;
  ground_truth_qd_type := NaN;
  match_status := NaN;
  blue_peak_nm := NaN;
  blue_fwhm_nm := NaN;
  green_peak_nm := NaN;
  green_fwhm_nm := NaN;
  red_peak_nm := NaN;
  red_fwhm_nm := NaN;
  num_peaks := NaN
|}.

Definition same_key (t : TvRow) (p : SpdRow) : bool :=
  (spd_product_id p =? product_id t)%Z.

(** The merged rows one specification row gives: one per spectral row
    with its [product_id], in the spectral table's order, or a single
    row with null spectral columns when there is none. *)
Definition merge_row (spd_df : list SpdRow) (t : TvRow) : list Merged :=
  match filter (same_key t) spd_df with
  | [] => [ {| tv_of := t; spd_of := null_spd |} ]
  | matches => map (fun p : SpdRow => {| tv_of := t; spd_of := p |}) matches
  end.

(** [tv_df.merge(spd_df[spd_cols], on='product_id', how='left')]. *)
Definition merge (tv_df : list TvRow) (spd_df : list SpdRow) : list Merged :=
  flat_map (merge_row spd_df) tv_df.

(** A row once lines 195-223 have assigned [display_type],
    [backlight_type_schema], the parsed [dimming_zone_count] and
    [color_architecture].  Line 210 writes the parsed column over the
    raw one: from here on the column [dimming_zone_count] of the frame,
    and of the output, is [dimming_zone_count_Int64] ([None] is
    [pd.NA]).  The raw cell stays in the record, under [merged_of], as
    the input the parse read; it is no column of the frame any more. *)
Record Staged : Type := {
  merged_of :> Merged;
  display_type : pyval;
  backlight_type_schema : pyval;
  dimming_zone_count_Int64 : option Z;
  color_architecture : pyval
}.

(** A row once line 228 has assigned [marketing_label]. *)
Record Row : Type := {
  staged_of :> Staged;
  marketing_label : string
}.

(** A row of the output: lines 252-266 have assigned the last columns. *)
Record Classified : Type := {
  row_of :> Row;
  qd_present : string;
  qd_material : pyval;
  spd_verified : string
}.

(** [merged.loc[mask, 'color_architecture'] = v] on one selected row. *)
Definition set_color_architecture (v : pyval) (r : Row) : Row := {|
  staged_of := {|
    merged_of := r;
    display_type := display_type r;
    backlight_type_schema := backlight_type_schema r;
    dimming_zone_count_Int64 := dimming_zone_count_Int64 r;
    color_architecture := v
  |};
  marketing_label := marketing_label r
|}.

(** [merged.loc[mask, 'spd_confidence'] = v] on one selected row, once
    the column accepts [v] (see [reclassify]). *)
Definition set_spd_confidence (v : pyval) (r : Row) : Row := {|
  staged_of := {|
    merged_of := {|
      tv_of := r;
      spd_of := {|
        spd_classification := spd_classification r;
        spd_confidence := v;
        ground_truth_tech := ground_truth_tech r;
        ground_truth_qd_type := ground_truth_qd_type r;
        match_status := match_status r;
        blue_peak_nm := blue_peak_nm r;
        blue_fwhm_nm := blue_fwhm_nm r;
        green_peak_nm := green_peak_nm r;
        green_fwhm_nm := green_fwhm_nm r;
        red_peak_nm := red_peak_nm r;
        red_fwhm_nm := red_fwhm_nm r;
        num_peaks := num_peaks r
      |}
    |};
    display_type := display_type r;
    backlight_type_schema := backlight_type_schema r;
    dimming_zone_count_Int64 := dimming_zone_count_Int64 r;
    color_architecture := color_architecture r
  |};
  marketing_label := marketing_label r
|}.

(* ===================================================================== *)
(** ** Attribute derivation rules *)
(* ===================================================================== *)

(** [d.get(key, default)] on a dict with string keys. *)
Fixpoint dict_get (d : list (string * pyval)) (key default : pyval) : pyval :=
  match d with
  | [] => default
  | (k, v) :: rest => if py_eq_str key k then v else dict_get rest key default
  end.

(** [Series.map(d)] on one cell: a value that is not a key becomes NaN. *)
Definition series_map_dict (d : list (string * pyval)) (v : pyval) : pyval :=
  dict_get d v NaN.

(** [Series.fillna(fill)] on one cell. *)
Definition fillna (fill v : pyval) : pyval :=
  if is_null v then fill else v.

(** Column 1 (lines 195-198). *)
Definition map_display_type (panel : pyval) : pyval :=
  fillna (PStr "LCD")
    (series_map_dict [("OLED", PStr "OLED"); ("LCD", PStr "LCD")] panel).

(** Lines 31-41. *)
Definition map_backlight_type (rtings_value panel_type : pyval) : pyval :=
  if py_eq_str panel_type "OLED" then PNone
  else
    let mapping := [ ("Full-Array", PStr "Direct-lit");
                     ("Direct", PStr "Direct-lit");
                     ("Edge", PStr "Edge-lit");
                     ("No Backlight", PNone) ] in
    dict_get mapping rtings_value rtings_value.

(** [Series.astype('Int64')] on a float64 column of one cell: NaN becomes
    [pd.NA]; a value that is not equal to an int64 makes the cast raise
    TypeError ("cannot safely cast non-equivalent float64 to int64"),
    and an infinite one OverflowError (the cast converts the largest
    value of the column with [int] first). *)
Definition astype_Int64 (f : float) : result (option Z) :=
  if PrimFloat.is_nan f then Ok None
  else match float_integer_value f with
       | Some z =>
           if ((int64_min <=? z) && (z <=? int64_max))%Z then Ok (Some z)
           else Raise TypeError
       | None =>
           if PrimFloat.is_infinity f then Raise OverflowError
           else Raise TypeError
       end.

(** The cell [numpy.nanargmax] points at: the first cell that is largest
    when NaN is read as minus infinity. *)
Definition nanargmax_cell (cells : list float) : option float :=
  option_map snd
    (fold_left
       (fun (best : option (float * float)) f =>
          let v := if PrimFloat.is_nan f then neg_infinity else f in
          match best with
          | None => Some (v, f)
          | Some (largest, _) => if (largest <? v)%float then Some (v, f) else best
          end)
       cells None).

(** A cell [int] turns into a Python integer below the int64 range, or
    refuses as infinite. *)
Definition below_int64 (f : float) : bool :=
  match float_integer_value f with
  | Some z => (z <? int64_min)%Z
  | None => PrimFloat.is_infinity f
  end.

(** The exception of the cast on a column it refuses.  The cast first
    converts the cell [nanargmax] points at with [int], which raises
    OverflowError on an infinite cell and ValueError on NaN (the column
    then holds nothing but NaN and minus infinity).  When that cell is
    a fraction the cells are cast as Python objects, where [int] raises
    OverflowError on a cell below the int64 range; in every other case
    the comparison of the cast column with the original one fails with
    TypeError. *)
Definition cast_error (cells : list float) : exn :=
  match nanargmax_cell cells with
  | Some m =>
      if PrimFloat.is_nan m then ValueError
      else if PrimFloat.is_infinity m then OverflowError
      else match float_integer_value m with
           | Some _ => TypeError
           | None => if existsb below_int64 cells then OverflowError
                     else TypeError
           end
  | None => TypeError
  end.

(** [Series.astype('Int64')] on a float64 column: every cell is cast, or
    the cast raises for the column as a whole. *)
Definition astype_Int64_column (cells : list float) : result (list (option Z)) :=
  match mapM astype_Int64 cells with
  | Ok zones => Ok zones
  | Raise _ => Raise (cast_error cells)
  end.

(** Column 7 (lines 88-173), the Samsung rules (lines 99-114); [None]
    when no rule returns and control leaves the [if brand == 'Samsung']
    block. *)
Definition samsung_label (name color_arch : pyval) : result (option string) :=
  c <- py_contains "QN9" name ||| py_contains "QN8" name ||| py_contains "QN7" name ;;
  if c then Ok (Some "Neo QLED") else
  c <- py_startswith name "Samsung Q" &&& notM (py_contains "OLED" name) ;;
  if c then Ok (Some "QLED") else
  c <- py_contains "S95" name ||| py_contains "S90" name ;;
  if c then Ok (Some "QD-OLED") else
  c <- py_contains "S85" name &&& py_contains "OLED" name ;;
  if c then
    (if py_eq_str color_arch "QD-OLED" then Ok (Some "QD-OLED")
     else Ok (Some "Samsung OLED"))
  else
  c <- py_contains "Frame" name ;;
  if c then
    (c <- py_contains "Pro" name ;;
     if c then Ok (Some "Neo QLED") else Ok (Some "QLED"))
  else
  c <- py_contains "DU" name ||| py_contains "U7" name ||| py_contains "U8" name ;;
  if c then Ok (Some "Crystal UHD") else
  Ok None.

(** The LG rules (lines 118-125). *)
Definition lg_label (name : pyval) : result (option string) :=
  c <- py_contains "OLED" name ;;
  if c then
    (c <- py_contains "G4" name ||| py_contains "G5" name ;;
     if c then Ok (Some "OLED evo") else Ok (Some "OLED"))
  else
  c <- py_contains "QNED" name ;;
  if c then Ok (Some "QNED") else
  c <- py_contains "UT" name ||| py_contains "UA" name ;;
  if c then Ok (Some "UHD") else
  Ok None.

(** The brands whose block always returns (lines 128-173). *)
Definition other_brand_label (name brand color_arch : pyval) : result string :=
  if py_eq_str brand "Sony" then
    if py_eq_str color_arch "QD-OLED" then Ok "QD-OLED" else
    c <- py_contains "OLED" name ;;
    if c then Ok "OLED" else Ok "BRAVIA"
  else if py_eq_str brand "Hisense" then
    if py_in color_arch ["QD-LCD"; "KSF"; "Pseudo QD"] then
      c <- py_contains "U8" name ||| py_contains "U9" name ;;
      if c then Ok "ULED" else Ok "QLED"
    else
    c <- py_contains "Canvas" name ;;
    if c then Ok "CanvasTV" else Ok "ULED"
  else if py_eq_str brand "TCL" then
    c <- py_contains "QM" name ||| py_contains "Q7" name ||| py_contains "Q6" name ;;
    if c then Ok "QLED" else Ok ""
  else if py_eq_str brand "Panasonic" then
    c <- py_contains "OLED" name ;;
    if c then Ok "OLED" else Ok ""
  else if py_eq_str brand "Roku" then Ok ""
  else if py_eq_str brand "Sharp" then
    c <- py_contains "XLED" name ;;
    if c then Ok "XLED" else Ok ""
  else if py_eq_str brand "Philips" then
    c <- py_contains "OLED" name ;;
    if c then Ok "OLED" else Ok ""
  else Ok "".

Definition determine_marketing_label (row : Staged) : result string :=
  let name := fullname row in
  let brand := brand row in
  let color_arch := color_architecture row in
  samsung <- (if py_eq_str brand "Samsung" then samsung_label name color_arch
              else Ok None) ;;
  match samsung with
  | Some label => Ok label
  | None =>
      lg <- (if py_eq_str brand "LG" then lg_label name else Ok None) ;;
      match lg with
      | Some label => Ok label
      | None => other_brand_label name brand color_arch
      end
  end.

(** Column 4 (lines 252-254), the function mapped over the column. *)
Definition qd_present_of (x : pyval) : string :=
  if py_in x ["QD-LCD"; "QD-OLED"] then "Yes" else "No".

(** Column 6 (lines 264-266), the function mapped over the raw
    [spd_classification] column; [Series.map] calls it on missing cells
    too ([na_action] is left at its default). *)
Definition spd_verified_of (x : pyval) : string :=
  if py_truthy x
     && negb (py_in x ["NO_SPD_IMAGE"; ""])
     && negb (str_startswith_ERROR x)
  then "Yes" else "No".

(* ===================================================================== *)
(** ** Reclassification pass (lines 237-247) *)
(* ===================================================================== *)

Definition qled_marketing : list string := ["QLED"; "QNED"; "ULED"].

(** [merged['color_architecture'] == 'KSF'] on one row. *)
Definition ksf_mask (r : Row) : bool :=
  py_eq_str (color_architecture r) "KSF".

(** [merged['marketing_label'].isin(qled_marketing)] on one row. *)
Definition marketed_as_qd (r : Row) : bool :=
  existsb (String.eqb (marketing_label r)) qled_marketing.

Definition reclass_mask (merged : list Row) : list bool :=
  map (fun r => ksf_mask r && marketed_as_qd r) merged.

(** [merged.loc[mask, column] = value]: [set] writes the column of the
    rows the boolean mask selects. *)
Fixpoint loc_assign (mask : list bool) (set : Row -> Row) (rows : list Row)
  : list Row :=
  match mask, rows with
  | b :: mask', r :: rows' =>
      (if b then set r else r) :: loc_assign mask' set rows'
  | _, _ => rows
  end.

(** Whether [read_csv] gives a column of a table the dtype float64:
    the table has a row, and every cell of the column is a number or
    missing.  One text cell makes it a column of text, and the columns
    of a table without rows are columns of objects. *)
Definition float64_column (cells : list pyval) : bool :=
  match cells with
  | [] => false
  | _ => forallb (fun v => match v with PFloat _ => true | _ => false end) cells
  end.

(** The pass.  The mask is computed once, before the first assignment,
    and used for both.

    Line 243 writes a str into [color_architecture]; a selected row
    holds the str "KSF" there, so the column holds text and takes it.
    Line 244 writes a str into [spd_confidence].  That column has the
    dtype [read_csv] gave it in the spectral table (the join only adds
    missing cells), which [spd_confidence_float64] tells.  A column of
    text takes the str.  When the column is float64, pandas up to 2.x
    widens it to a column of objects (with a FutureWarning) and the
    write goes through; pandas from 3.0 on refuses the write with
    TypeError.  [strict_setitem] is [true] for the releases that
    refuse.  The source pins no release. *)
Definition reclassify (strict_setitem spd_confidence_float64 : bool)
           (merged : list Row) : result (list Row) :=
  let mask := reclass_mask merged in
  let reclass_count := List.length (filter (fun b : bool => b) mask) in
  if (0 <? reclass_count)%nat then
    let merged := loc_assign mask (set_color_architecture (PStr "Pseudo QD")) merged in
    if strict_setitem && spd_confidence_float64
    then Raise TypeError
    else Ok (loc_assign mask (set_spd_confidence (PStr "medium")) merged)
  else Ok merged.

(** The rows the pass reports ([print] at lines 245-247): name and
    marketing label of every reclassified row. *)
Definition reclass_report (merged : list Row) : list (pyval * string) :=
  map (fun r : Row => (fullname r, marketing_label r))
      (filter (fun r => ksf_mask r && marketed_as_qd r) merged).

(* ===================================================================== *)
(** ** The pipeline *)
(* ===================================================================== *)

Section Pipeline.

(** Python's [float(s)] on a str ([None]: it raises ValueError) and the
    numeric-literal reader of [pandas.to_numeric] ([None]: the text is
    not a number).  Both belong to the language and its library; the
    development holds for every such pair of readers. *)
Variable float_of_str : string -> option float.
Variable to_numeric_str : string -> option float.

(** Whether the pandas release refuses a str in a float64 column (see
    [reclassify]). *)
Variable strict_setitem : bool.

(** [float(v)]. *)
Definition py_float (v : pyval) : result float :=
  match v with
  | PFloat f => Ok f
  | PStr s => match float_of_str s with
              | Some f => Ok f
              | None => Raise ValueError
              end
  | PNone => Raise TypeError
  end.

(** Column 5 (lines 44-85).  [float] raises nothing but ValueError and
    TypeError, so the [except] clause catches every exception of the
    [try] block.  The column [green_fwhm_nm] always exists after the
    join, so [row.get] never returns its default. *)
Definition determine_qd_material (row : Row) : pyval :=
  let color_arch := color_architecture row in
  if negb (py_in color_arch ["QD-LCD"; "QD-OLED"]) then PNone else
  if py_eq_str color_arch "QD-OLED" then PStr "InP" else
  let green_fwhm := green_fwhm_nm row in
  let brand := brand row in
  if py_in brand ["Samsung"; "Sony"; "LG"; "Panasonic"; "Philips"] then PStr "InP" else
  match py_float green_fwhm with
  | Ok g_fwhm =>
      if (g_fwhm <? 28)%float then PStr "CdSe" else PStr "InP"
  | Raise _ =>
      if py_eq_str brand "Hisense" then PStr "CdSe" else
      if py_eq_str brand "TCL" then PStr "CdSe" else
      PStr "Unknown"
  end.

(** [pd.to_numeric(column, errors='coerce')] on one cell. *)
Definition to_numeric_coerce (v : pyval) : float :=
  match v with
  | PFloat f => f
  | PStr s => match to_numeric_str s with
              | Some f => f
              | None => nan
              end
  | PNone => nan
  end.

(** Lines 210-212 on one cell of the raw [dimming_zone_count] column. *)
Definition parse_dimming_zone_count (raw : pyval) : result (option Z) :=
  astype_Int64 (to_numeric_coerce raw).

(** Lines 210-212 on the raw column. *)
Definition parse_dimming_zone_column (raws : list pyval)
  : result (list (option Z)) :=
  astype_Int64_column (map to_numeric_coerce raws).

(** Lines 195-223 on one merged row whose dimming zone count has been
    parsed; line 218 clears the count of OLED rows. *)
Definition stage (m : Merged) (zones : option Z) : Staged :=
  let display := map_display_type (panel_type m) in
  {| merged_of := m;
     display_type := display;
     backlight_type_schema := map_backlight_type (backlight_type m) (panel_type m);
     dimming_zone_count_Int64 := if py_eq_str display "OLED" then None else zones;
     color_architecture := spd_classification m |}.

(** Line 228 on one row. *)
Definition label (s : Staged) : result Row :=
  l <- determine_marketing_label s ;;
  Ok {| staged_of := s; marketing_label := l |}.

(** Lines 252-266 on one row. *)
Definition classify (r : Row) : Classified :=
  {| row_of := r;
     qd_present := qd_present_of (color_architecture r);
     qd_material := determine_qd_material r;
     spd_verified := spd_verified_of (spd_classification r) |}.

(** [build_schema], from the two tables to the output frame.  The cast
    of line 212 raises for the whole column when one cell does, [apply]
    at line 228 raises at the first row whose label does, and line 244
    may refuse its write; the first exception ends the run. *)
Definition build_schema (tv_df : list TvRow) (spd_df : list SpdRow)
  : result (list Classified) :=
  let merged := merge tv_df spd_df in
  zones <- parse_dimming_zone_column
             (map (fun m : Merged => dimming_zone_count m) merged) ;;
  let staged := map (fun mz : Merged * option Z => stage (fst mz) (snd mz))
                    (combine merged zones) in
  labelled <- mapM label staged ;;
  reclassified <- reclassify strict_setitem
                    (float64_column (map (fun p : SpdRow => spd_confidence p) spd_df))
                    labelled ;;
  Ok (map classify reclassified).

End Pipeline.

(* ===================================================================== *)
(** ** Row-wise reading of the pass *)
(* ===================================================================== *)

(** What the pass does to one row: both assignments on a selected row,
    nothing on the others. *)
Definition reclass_row (r : Row) : Row :=
  if ksf_mask r && marketed_as_qd r
  then set_spd_confidence (PStr "medium") (set_color_architecture (PStr "Pseudo QD") r)
  else r.

(** The columns the pass never writes. *)
Definition same_outside_pass (r r' : Row) : Prop :=
  tv_of r' = tv_of r
  /\ spd_classification r' = spd_classification r
  /\ ground_truth_tech r' = ground_truth_tech r
  /\ ground_truth_qd_type r' = ground_truth_qd_type r
  /\ match_status r' = match_status r
  /\ blue_peak_nm r' = blue_peak_nm r
  /\ blue_fwhm_nm r' = blue_fwhm_nm r
  /\ green_peak_nm r' = green_peak_nm r
  /\ green_fwhm_nm r' = green_fwhm_nm r
  /\ red_peak_nm r' = red_peak_nm r
  /\ red_fwhm_nm r' = red_fwhm_nm r
  /\ num_peaks r' = num_peaks r
  /\ display_type r' = display_type r
  /\ backlight_type_schema r' = backlight_type_schema r
  /\ dimming_zone_count_Int64 r' = dimming_zone_count_Int64 r
  /\ marketing_label r' = marketing_label r.

(** How an output row comes from the merged row in its place: the
    parsed dimming zone count, the marketing label, the pass, and the
    last three columns. *)
Definition output_of (float_of_str to_numeric_str : string -> option float)
           (m : Merged) (c : Classified) : Prop :=
  exists zones l,
    parse_dimming_zone_count to_numeric_str (dimming_zone_count m) = Ok zones
    /\ determine_marketing_label (stage m zones) = Ok l
    /\ c = classify float_of_str
             (reclass_row {| staged_of := stage m zones; marketing_label := l |}).

(** The merged row the left join gives a specification row when the
    spectral table holds at most one row per [product_id]: the first
    (then only) match, or null spectral columns. *)
Definition left_join_row (spd_df : list SpdRow) (t : TvRow) : Merged :=
  {| tv_of := t;
     spd_of := match find (same_key t) spd_df with
               | Some p => spd_cols p
               | None => null_spd
               end |}.

(** A cell the cast of line 212 accepts: NaN, or a float equal to an
    int64. *)
Definition castable (f : float) : bool :=
  PrimFloat.is_nan f
  || match float_integer_value f with
     | Some z => ((int64_min <=? z) && (z <=? int64_max))%Z
     | None => false
     end.

(* ===================================================================== *)
(** ** Sample tables *)
(* ===================================================================== *)

(** A reader of plain unsigned decimal integers.  Python's [float] and
    [pandas.to_numeric] both read such text as that number; the examples
    below instantiate the two readers with it and use no other text in
    a numeric column. *)
Definition float_of_Z (z : Z) : float :=
  SF2Prim (binary_normalize prec emax z 0 false).

Fixpoint digits_value (acc : Z) (s : string) : option Z :=
  match s with
  | EmptyString => Some acc
  | String c rest =>
      let n := nat_of_ascii c in
      if ((48 <=? n) && (n <=? 57))%nat
      then digits_value (10 * acc + Z.of_nat (n - 48)) rest
      else None
  end.

Definition decimal_reader (s : string) : option float :=
  match s with
  | EmptyString => None
  | _ => option_map float_of_Z (digits_value 0 s)
  end.

Definition tv_row (id : Z) (name maker panel backlight : string) (zones : pyval)
  : TvRow :=
  {| product_id := id;
     fullname := PStr name;
     brand := PStr maker;
     panel_type := PStr panel;
     backlight_type := PStr backlight;
     dimming_zone_count := zones;
     other_columns := [] |}.

Definition spd_columns (classification confidence green_fwhm : pyval) : SpdCols :=
  {| spd_classification := classification;
     spd_confidence := confidence;
     ground_truth_tech := NaN;
     ground_truth_qd_type := NaN;
     match_status := NaN;
     blue_peak_nm := NaN;
     blue_fwhm_nm := NaN;
     green_peak_nm := NaN;
     green_fwhm_nm := green_fwhm;
     red_peak_nm := NaN;
     red_fwhm_nm := NaN;
     num_peaks := NaN |}.

Definition spd_row (id : Z) (classification confidence : string) (green_fwhm : pyval)
  : SpdRow :=
  {| spd_product_id := id;
     spd_cols := spd_columns (PStr classification) (PStr confidence) green_fwhm |}.

(** A row as it stands after line 228, with a given marketing label. *)
Definition labelled_row (t : TvRow) (p : SpdCols) (l : string) : Row :=
  {| staged_of := stage {| tv_of := t; spd_of := p |} None;
     marketing_label := l |}.

Definition samsung_q60 : TvRow :=
  tv_row 1 "Samsung Q60D QLED" "Samsung" "LCD" "Edge" (PStr "0").
Definition lg_c4 : TvRow :=
  tv_row 2 "LG C4 OLED" "LG" "OLED" "No Backlight" (PStr "8294400").
Definition hisense_u8 : TvRow :=
  tv_row 3 "Hisense U8N" "Hisense" "LCD" "Full-Array" (PStr "1296").
Definition vizio_m : TvRow :=
  tv_row 4 "Vizio M-Series" "Vizio" "LCD" "Direct" NaN.
Definition insignia_f50 : TvRow :=
  tv_row 5 "Insignia F50" "Insignia" "LCD" "Direct" (PStr "unknown").

(** The sample specification table.  One cell of its raw dimming zone
    column is text that is not a number, so the column has no numeric
    dtype and its other cells are text as well. *)
Definition sample_tv : list TvRow :=
  [samsung_q60; lg_c4; hisense_u8; vizio_m; insignia_f50].

Definition sample_spd : list SpdRow :=
  [ spd_row 1 "KSF" "high" (PFloat 31.5);
    spd_row 2 "WOLED" "high" NaN;
    spd_row 3 "QD-LCD" "high" (PFloat 25);
    spd_row 5 "KSF" "low" (PFloat 40);
    spd_row 9 "QD-OLED" "high" (PFloat 33) ].

(** Two KSF rows after line 228: one marketed as QLED, one without a
    marketing label. *)
Definition ksf_qled_row : Row :=
  labelled_row samsung_q60 (spd_columns (PStr "KSF") (PStr "high") (PFloat 31.5)) "QLED".
Definition ksf_plain_row : Row :=
  labelled_row insignia_f50 (spd_columns (PStr "KSF") (PStr "low") (PFloat 40)) "".
Definition pseudo_qd_row : Row :=
  labelled_row hisense_u8 (spd_columns (PStr "Pseudo QD") (PStr "high") (PFloat 30)) "ULED".

(** A spectral table whose confidence column is empty, hence float64,
    with a KSF measurement of the Samsung set; that set's row as it
    stands after line 228; and the table with one more measurement, of
    a set the specification table does not hold, whose confidence is
    text. *)
Definition spd_no_confidence : list SpdRow :=
  [ {| spd_product_id := 1;
       spd_cols := spd_columns (PStr "KSF") NaN (PFloat 31.5) |} ].
Definition ksf_qled_no_confidence : Row :=
  labelled_row samsung_q60 (spd_columns (PStr "KSF") NaN (PFloat 31.5)) "QLED".
Definition spd_one_confidence : list SpdRow :=
  spd_no_confidence ++ [ spd_row 9 "QD-OLED" "high" (PFloat 33) ].

(** The output [build_schema] writes for the sample tables. *)
Definition sample_output : list Classified :=
  Eval vm_compute in
    match build_schema decimal_reader decimal_reader true sample_tv sample_spd with
    | Ok out => out
    | Raise _ => []
    end.

(** Two spectral rows for one product, and two Sony sets of one name
    whose spectral classifications differ. *)
Definition twice_measured : list SpdRow :=
  [ spd_row 1 "KSF" "high" (PFloat 31.5); spd_row 1 "QD-LCD" "low" (PFloat 26) ].

Definition sony_a95 (id : Z) : TvRow :=
  tv_row id "Sony A95L OLED" "Sony" "OLED" "No Backlight" NaN.

Definition sony_spd : list SpdRow :=
  [ spd_row 1 "QD-OLED" "high" (PFloat 33); spd_row 2 "WOLED" "high" NaN ].

(** A Hisense QD-LCD row whose green FWHM is missing, after line 228. *)
Definition hisense_qd_no_fwhm : Row :=
  labelled_row hisense_u8 (spd_columns (PStr "QD-LCD") (PStr "high") NaN) "ULED".

(** A set whose raw dimming zone count is a fraction, and one whose
    count is negative. *)
Definition fractional_zones : TvRow :=
  tv_row 6 "TCL QM8" "TCL" "LCD" "Full-Array" (PFloat 12.5).
Definition negative_zones : TvRow :=
  tv_row 7 "TCL Q6" "TCL" "LCD" "Direct" (PFloat (-5)).

(* ===================================================================== *)
(** ** Relations between the merged frame and the output *)
(* ===================================================================== *)

(** How the pass shows in an output row, read from the merged row in
    its place: a row the pass reclassified (raw class "KSF", label one
    of QLED, QNED, ULED) holds "Pseudo QD" and "medium"; on every other
    row [color_architecture] is the raw class and [spd_confidence] is
    the one of the join. *)
Definition pass_outcome (m : Merged) (c : Classified) : Prop :=
  spd_classification c = spd_classification m
  /\ ((color_architecture c = spd_classification m
       /\ spd_confidence c = spd_confidence m
       /\ ~ (spd_classification m = PStr "KSF"
             /\ In (marketing_label c) qled_marketing))
      \/ (spd_classification m = PStr "KSF"
          /\ In (marketing_label c) qled_marketing
          /\ color_architecture c = PStr "Pseudo QD"
          /\ spd_confidence c = PStr "medium")).

(** What the run leaves of a merged row in the output row in its place.
    The columns named here are columns of the output (all of them are
    in [schema_cols]) that no line writes after the join:
    [product_id], [fullname], [brand], [panel_type], the raw
    [backlight_type] (renamed [backlight_type_rtings]) and the spectral
    columns other than [spd_confidence] and [num_peaks].  The raw
    [dimming_zone_count] is not among them (line 210 writes over it),
    nor is [num_peaks] (the projection of line 334 drops it).
    [spd_confidence] and [color_architecture] are as [pass_outcome]
    says. *)
Definition passes_through (m : Merged) (c : Classified) : Prop :=
  product_id c = product_id m
  /\ fullname c = fullname m
  /\ brand c = brand m
  /\ panel_type c = panel_type m
  /\ backlight_type c = backlight_type m
  /\ ground_truth_tech c = ground_truth_tech m
  /\ ground_truth_qd_type c = ground_truth_qd_type m
  /\ match_status c = match_status m
  /\ blue_peak_nm c = blue_peak_nm m
  /\ blue_fwhm_nm c = blue_fwhm_nm m
  /\ green_peak_nm c = green_peak_nm m
  /\ green_fwhm_nm c = green_fwhm_nm m
  /\ red_peak_nm c = red_peak_nm m
  /\ red_fwhm_nm c = red_fwhm_nm m
  /\ pass_outcome m c.

(** The columns of the output frame (lines 273-340), from the columns
    the merged frame has: the schema columns that exist, in the order of
    [schema_cols], two of them renamed. *)
Definition schema_cols : list string :=
  [ "product_id"; "fullname"; "brand"; "url_part"; "review_url";
    "test_bench_version"; "released_at"; "first_published_at"; "last_updated_at";
    "sizes_available";
    "display_type"; "backlight_type_schema"; "dimming_zone_count";
    "color_architecture"; "qd_present"; "qd_material"; "spd_verified";
    "marketing_label";
    "panel_type"; "panel_sub_type"; "backlight_type";
    "spd_classification"; "spd_confidence";
    "blue_peak_nm"; "blue_fwhm_nm"; "green_peak_nm"; "green_fwhm_nm";
    "red_peak_nm"; "red_fwhm_nm";
    "mixed_usage"; "home_theater"; "gaming"; "sports"; "bright_room";
    "color_score"; "brightness_score"; "black_level_score";
    "contrast_ratio_score"; "native_contrast_score";
    "sdr_dci_p3_coverage_pct"; "sdr_bt2020_coverage_pct";
    "hdr_bt2020_coverage_itp_pct";
    "sdr_real_scene_peak_nits"; "sdr_peak_10pct_nits"; "sdr_peak_2pct_nits";
    "hdr_peak_100pct_nits"; "hdr_peak_50pct_nits"; "hdr_peak_25pct_nits";
    "hdr_peak_10pct_nits"; "hdr_peak_2pct_nits";
    "native_contrast"; "contrast_ratio";
    "first_response_time_ms"; "total_response_time_ms";
    "input_lag_1080p_ms"; "input_lag_4k_ms";
    "native_refresh_rate"; "vrr_support"; "hdmi_forum_vrr";
    "hdmi_ports"; "hdmi_21_speed"; "resolution";
    "ground_truth_tech"; "ground_truth_qd_type"; "match_status";
    "scraped_at"; "spd_image"; "spd_image_local" ].

(** [c in columns]. *)
Definition has_column (columns : list string) (c : string) : bool :=
  existsb (String.eqb c) columns.

(** [output.rename(columns={...})] on one column name (lines 337-340). *)
Definition rename_column (c : string) : string :=
  if String.eqb c "backlight_type_schema" then "backlight_type_v2"
  else if String.eqb c "backlight_type" then "backlight_type_rtings"
  else c.

Definition output_columns (merged_columns : list string) : list string :=
  let available_cols := filter (has_column merged_columns) schema_cols in
  map rename_column available_cols.

(** The columns [build_schema] itself puts in the merged frame: the
    spectral columns of the join and the columns of lines 195-266. *)
Definition assigned_columns : list string :=
  [ "spd_classification"; "spd_confidence"; "ground_truth_tech";
    "ground_truth_qd_type"; "match_status"; "blue_peak_nm"; "blue_fwhm_nm";
    "green_peak_nm"; "green_fwhm_nm"; "red_peak_nm"; "red_fwhm_nm"; "num_peaks";
    "display_type"; "backlight_type_schema"; "color_architecture";
    "marketing_label"; "qd_present"; "qd_material"; "spd_verified" ].

(** A list of strings without a repeated element, as a test. *)
Fixpoint distinct (l : list string) : bool :=
  match l with
  | [] => true
  | x :: rest => negb (existsb (String.eqb x) rest) && distinct rest
  end.

(* ===================================================================== *)
(** ** The scraper: record assembly ([src/rtings_scraper.py]) *)
(* ===================================================================== *)

(** The part of [rtings_scraper.py] between the API calls and the files:
    [build_product_records], [merge_test_results], [merge_ratings], the
    file name of [download_spd_images] and the column order of
    [save_outputs].  The API responses are typed as the code reads
    them: a key read with [d[k]] is a field, a key read with [d.get(k)]
    is an optional field. *)
Module Scraper.

(** A value decoded from JSON. *)
#[warnings="-register-all"]
Inductive jval : Type :=
| JNull
| JBool (b : bool)
| JInt (z : Z)
| JFloat (f : float)
| JStr (s : string)
| JList (items : list jval)
| JDict (fields : list (string * jval)).

(** [bool(v)]. *)
Definition truthy (v : jval) : bool :=
  match v with
  | JNull => false
  | JBool b => b
  | JInt z => negb (z =? 0)%Z
  | JFloat f => negb (PrimFloat.eqb f 0)
  | JStr s => negb (String.eqb s "")
  | JList items => match items with [] => false | _ => true end
  | JDict fields => match fields with [] => false | _ => true end
  end.

(** [d.get(k, default)] on an optional field. *)
Definition get_or (field : option jval) (default : jval) : jval :=
  match field with
  | Some v => v
  | None => default
  end.

(** A Python dict as the list of its items in insertion order. *)
Section Dict.

Context {K V : Type} (eqb : K -> K -> bool).

(** [d.get(k)], [None] when the key is absent. *)
Fixpoint lookup (d : list (K * V)) (k : K) : option V :=
  match d with
  | [] => None
  | (k', v) :: rest => if eqb k' k then Some v else lookup rest k
  end.

(** [d[k] = v]: the value of an existing key is replaced where the key
    stands, a new key goes to the end. *)
Fixpoint assign (d : list (K * V)) (k : K) (v : V) : list (K * V) :=
  match d with
  | [] => [(k, v)]
  | (k', v') :: rest =>
      if eqb k' k then (k', v) :: rest else (k', v') :: assign rest k v
  end.

End Dict.

(** One product record: column name to value. *)
Definition record : Type := list (string * jval).

Definition column (rec : record) (c : string) : option jval :=
  lookup String.eqb rec c.

Definition set_column (rec : record) (c : string) (v : jval) : record :=
  assign String.eqb rec c v.

(** Lines 56-106 and 109-119. *)
Definition TEST_IDS : list (string * string) :=
  [ ("217", "panel_type"); ("215", "backlight_type"); ("208", "resolution");
    ("219", "native_refresh_rate");
    ("141", "hdr_peak_2pct_nits"); ("461", "hdr_peak_10pct_nits");
    ("462", "hdr_peak_25pct_nits"); ("96", "hdr_peak_50pct_nits");
    ("463", "hdr_peak_100pct_nits"); ("609", "sdr_peak_2pct_nits");
    ("610", "sdr_peak_10pct_nits"); ("619", "sdr_real_scene_peak_nits");
    ("11", "native_contrast"); ("647", "contrast_ratio");
    ("16981", "dimming_zone_count");
    ("28334", "sdr_dci_p3_coverage_pct"); ("28336", "sdr_bt2020_coverage_pct");
    ("927", "hdr_bt2020_coverage_itp_pct");
    ("30862", "first_response_time_ms"); ("30860", "total_response_time_ms");
    ("12237", "input_lag_1080p_ms"); ("12239", "input_lag_4k_ms");
    ("487", "hdmi_ports"); ("2684", "hdmi_21_speed");
    ("2190", "vrr_support"); ("5039", "hdmi_forum_vrr");
    ("26239", "spd_image");
    ("133", "backlight_chart") ].

Definition USAGE_IDS : list (string * string) :=
  [ ("1", "mixed_usage"); ("12", "home_theater"); ("32477", "bright_room");
    ("9", "sports"); ("10", "gaming"); ("32475", "brightness_score");
    ("32565", "black_level_score"); ("32566", "color_score");
    ("32496", "game_mode_responsiveness") ].

(** [ids.get(oid, f"{prefix}{oid}")]. *)
Definition id_column (ids : list (string * string)) (prefix oid : string)
  : string :=
  match lookup String.eqb ids oid with
  | Some name => name
  | None => String.append prefix oid
  end.

(** An element of [variant_skus]. *)
Record Sku : Type := {
  variation : string;
  name : string
}.

(** An element of the products list, as [build_product_records] reads
    it. *)
Record Product : Type := {
  id : Z;
  fullname : jval;
  brand_name : jval;
  full_url_part : jval;
  page_url : string;
  page_first_published_at : option jval;
  image : option jval;
  test_bench_id : jval;
  test_bench_display_name : jval;
  approximate_released_at : option jval;
  last_updated_at : option jval;
  reviewed_sku_id : option jval;
  variant_skus : option (list Sku)
}.

Definition skus_of (p : Product) : list Sku :=
  match variant_skus p with
  | Some skus => skus
  | None => []
  end.

(** The dict literal of lines 201-218. *)
Definition product_record (p : Product) : record :=
  [ ("product_id", JInt (id p));
    ("fullname", fullname p);
    ("brand", brand_name p);
    ("url_part", full_url_part p);
    ("review_url", JStr (String.append "https://www.rtings.com" (page_url p)));
    ("image_url", get_or (image p) (JStr ""));
    ("test_bench_id", test_bench_id p);
    ("test_bench_version", test_bench_display_name p);
    ("released_at", get_or (approximate_released_at p) (JStr ""));
    ("last_updated_at", get_or (last_updated_at p) (JStr ""));
    ("first_published_at", get_or (page_first_published_at p) (JStr ""));
    ("reviewed_sku_id", get_or (reviewed_sku_id p) (JStr ""));
    ("sizes_available",
     JStr (String.concat "; "
             (map (fun s => String.append (variation s)
                              (String.append " (" (String.append (name s) ")")))
                  (skus_of p))));
    ("sku_count", JInt (Z.of_nat (List.length (skus_of p)))) ].

(** The records, keyed by product id. *)
Definition records : Type := list (Z * record).

(** Lines 195-219. *)
Definition build_product_records (products : list Product) : records :=
  fold_left (fun recs p => assign Z.eqb recs (id p) (product_record p))
            products [].

(** An element of the test results, as [merge_test_results] reads it. *)
Record TestResult : Type := {
  tr_product_id : Z;
  tr_original_id : string;
  kind : string;
  asset_url : option jval;
  asset_thumb_url : option jval;
  value : option jval;
  score : option jval;
  rendered_value : option jval
}.

(** Lines 228-243 on the record of the product. *)
Definition store_test_result (rec : record) (tr : TestResult) : record :=
  let col_name := id_column TEST_IDS "test_" (tr_original_id tr) in
  if String.eqb (kind tr) "picture" then
    let rec := set_column rec col_name (get_or (asset_url tr) (JStr "")) in
    if truthy (get_or (asset_thumb_url tr) JNull)
    then set_column rec (String.append col_name "_thumb")
                    (get_or (asset_thumb_url tr) JNull)
    else rec
  else if String.eqb (kind tr) "number" then
    let rec := set_column rec col_name (get_or (value tr) JNull) in
    let rec := set_column rec (String.append col_name "_score")
                          (get_or (score tr) JNull) in
    set_column rec (String.append col_name "_display")
               (get_or (rendered_value tr) (JStr ""))
  else if String.eqb (kind tr) "word" then
    set_column rec col_name (get_or (value tr) (JStr ""))
  else
    set_column rec col_name
               (if truthy (get_or (rendered_value tr) JNull)
                then get_or (rendered_value tr) JNull
                else get_or (value tr) (JStr "")).

(** The columns lines 228-243 write for a test result. *)
Definition written_columns (tr : TestResult) : list string :=
  let col_name := id_column TEST_IDS "test_" (tr_original_id tr) in
  if String.eqb (kind tr) "picture" then
    if truthy (get_or (asset_thumb_url tr) JNull)
    then [col_name; String.append col_name "_thumb"]
    else [col_name]
  else if String.eqb (kind tr) "number" then
    [col_name; String.append col_name "_score"; String.append col_name "_display"]
  else [col_name].

(** Lines 222-243. *)
Definition merge_test_results (recs : records) (test_results : list TestResult)
  : records :=
  fold_left
    (fun recs tr =>
       let pid := tr_product_id tr in
       match lookup Z.eqb recs pid with
       | None => recs
       | Some rec => assign Z.eqb recs pid (store_test_result rec tr)
       end)
    test_results recs.

(** An element of the ratings, as [merge_ratings] reads it. *)
Record Rating : Type := {
  r_product_id : Z;
  r_original_id : string;
  r_score : option jval
}.

Definition store_rating (rec : record) (r : Rating) : record :=
  let col_name := id_column USAGE_IDS "usage_" (r_original_id r) in
  set_column rec col_name (get_or (r_score r) JNull).

(** Lines 246-254. *)
Definition merge_ratings (recs : records) (ratings : list Rating) : records :=
  fold_left
    (fun recs r =>
       let pid := r_product_id r in
       match lookup Z.eqb recs pid with
       | None => recs
       | Some rec => assign Z.eqb recs pid (store_rating rec r)
       end)
    ratings recs.

(** Step 4 of [main] (lines 440-442). *)
Definition assemble (products : list Product) (test_results : list TestResult)
           (ratings : list Rating) : records :=
  merge_ratings (merge_test_results (build_product_records products) test_results)
                ratings.

(** [s.replace("/", "-")]: each slash becomes a dash. *)
Fixpoint replace_slash (s : string) : string :=
  match s with
  | EmptyString => EmptyString
  | String c rest =>
      String (if Ascii.eqb c "/"%char then "-"%char else c) (replace_slash rest)
  end.

(** Lines 280-281: the file name of a product's SPD image. *)
Definition spd_filename (url_part : string) : string :=
  let safe_name := replace_slash url_part in
  String.append safe_name "_spd.jpg".

(** [sorted(names)]: the names in ascending order of their characters. *)
Fixpoint insert_sorted (x : string) (l : list string) : list string :=
  match l with
  | [] => [x]
  | y :: rest => if String.leb x y then x :: l else y :: insert_sorted x rest
  end.

Fixpoint sorted (l : list string) : list string :=
  match l with
  | [] => []
  | x :: rest => insert_sorted x (sorted rest)
  end.

Definition mem (c : string) (l : list string) : bool :=
  existsb (String.eqb c) l.

Definition identity_cols : list string :=
  [ "product_id"; "fullname"; "brand"; "url_part"; "review_url";
    "test_bench_id"; "test_bench_version";
    "released_at"; "last_updated_at"; "first_published_at";
    "sizes_available"; "sku_count" ].

Definition panel_cols : list string :=
  [ "panel_type"; "backlight_type"; "resolution"; "native_refresh_rate";
    "dimming_zone_count" ].

(** Lines 322-342 of [save_outputs]: the order of the columns in the
    files, from the columns of the frame (with "scraped_at" in it). *)
Definition ordered_cols (columns : list string) : list string :=
  let usage_cols := sorted (filter (fun c => mem c (map snd USAGE_IDS)) columns) in
  let known := identity_cols ++ panel_cols ++ usage_cols
               ++ ["scraped_at"; "image_url"; "reviewed_sku_id"] in
  let other_cols := sorted (filter (fun c => negb (mem c known)) columns) in
  let ordered := identity_cols ++ panel_cols ++ usage_cols ++ other_cols
                 ++ ["scraped_at"] in
  let ordered := filter (fun c => mem c columns) ordered in
  let remaining := filter (fun c => negb (mem c ordered)) columns in
  ordered ++ remaining.

(** The columns [build_product_records] writes that no test result and
    no rating can overwrite. *)
Definition kept_columns : list string :=
  [ "product_id"; "fullname"; "brand"; "url_part"; "review_url"; "image_url";
    "released_at"; "last_updated_at"; "first_published_at"; "reviewed_sku_id";
    "sizes_available"; "sku_count" ].

(** No column a test result writes is a kept column. *)
Definition apart_from_kept (col : string) : bool :=
  forallb (fun c => negb (String.eqb col c)
                    && negb (String.eqb (String.append col "_thumb") c)
                    && negb (String.eqb (String.append col "_score") c)
                    && negb (String.eqb (String.append col "_display") c))
          kept_columns.

(** A record stems from a product of the list: it has the product's id
    as key and the product's values in the kept columns. *)
Definition stems_from (products : list Product) (recs : records) : Prop :=
  forall pid rec,
    lookup Z.eqb recs pid = Some rec ->
    exists p, In p products /\ id p = pid
              /\ forall c, In c kept_columns ->
                           column rec c = column (product_record p) c.

(** A product list, test results and ratings for the examples. *)
Definition product (pid : Z) (title maker slug : string) (skus : list Sku)
  : Product :=
  {| id := pid;
     fullname := JStr title;
     brand_name := JStr maker;
     full_url_part := JStr slug;
     page_url := String.append "/tv/reviews/" slug;
     page_first_published_at := None;
     image := None;
     test_bench_id := JInt 210;
     test_bench_display_name := JStr "2.1";
     approximate_released_at := None;
     last_updated_at := None;
     reviewed_sku_id := None;
     variant_skus := Some skus |}.

Definition sample_products : list Product :=
  [ product 101 "LG C4 OLED" "LG" "lg/c4-oled"
            [ {| variation := "55"; name := "OLED55C4" |};
              {| variation := "65"; name := "OLED65C4" |} ];
    product 102 "TCL QM8" "TCL" "tcl/qm8" [] ].

Definition sample_test_results : list TestResult :=
  [ {| tr_product_id := 101; tr_original_id := "217"; kind := "word";
       asset_url := None; asset_thumb_url := None;
       value := Some (JStr "OLED"); score := None; rendered_value := None |};
    {| tr_product_id := 102; tr_original_id := "16981"; kind := "number";
       asset_url := None; asset_thumb_url := None;
       value := Some (JInt 1296); score := Some (JFloat 8.5);
       rendered_value := Some (JStr "1296") |};
    {| tr_product_id := 999; tr_original_id := "217"; kind := "word";
       asset_url := None; asset_thumb_url := None;
       value := Some (JStr "LCD"); score := None; rendered_value := None |} ].

Definition sample_ratings : list Rating :=
  [ {| r_product_id := 101; r_original_id := "1"; r_score := Some (JFloat 9.0) |};
    {| r_product_id := 101; r_original_id := "1"; r_score := Some (JFloat 9.5) |};
    {| r_product_id := 102; r_original_id := "77"; r_score := None |} ].

Definition sample_columns : list string :=
  [ "product_id"; "fullname"; "brand"; "url_part"; "image_url"; "sku_count";
    "panel_type"; "spd_image"; "mixed_usage"; "gaming"; "dimming_zone_count";
    "dimming_zone_count_score"; "scraped_at" ].

End Scraper.

(* ===================================================================== *)
(** ** Basic facts about the Python operations *)
(* ===================================================================== *)

Lemma py_eq_str_true (v : pyval) (lit : string) :
  py_eq_str v lit = true <-> v = PStr lit.
Proof.
  destruct v as [| f | s]; simpl; split; intro H; try discriminate.
  - apply String.eqb_eq in H. now subst.
  - injection H as ->. apply String.eqb_refl.
Qed.

Lemma py_eq_str_false (v : pyval) (lit : string) :
  py_eq_str v lit = false <-> v <> PStr lit.
Proof.
  rewrite <- py_eq_str_true. destruct (py_eq_str v lit); split; congruence.
Qed.

Lemma py_in_true (v : pyval) (lits : list string) :
  py_in v lits = true <-> exists lit, In lit lits /\ v = PStr lit.
Proof.
  unfold py_in. rewrite existsb_exists.
  split; intros [lit [Hin H]]; exists lit; split; auto; now apply py_eq_str_true.
Qed.

Lemma isin_true (s : string) (lits : list string) :
  existsb (String.eqb s) lits = true <-> In s lits.
Proof.
  rewrite existsb_exists. split.
  - intros [x [Hin H]]. apply String.eqb_eq in H. now subst.
  - intro Hin. exists s. split; auto. apply String.eqb_refl.
Qed.

Lemma mapM_Ok_Forall2 {A B : Type} (f : A -> result B) (xs : list A) (ys : list B) :
  mapM f xs = Ok ys -> Forall2 (fun x y => f x = Ok y) xs ys.
Proof.
  revert ys. induction xs as [| x xs IH]; simpl; intros ys H.
  - injection H as <-. constructor.
  - destruct (f x) as [y | e] eqn:Hx; simpl in H; try discriminate.
    destruct (mapM f xs) as [ys' | e] eqn:Hxs; simpl in H; try discriminate.
    injection H as <-. constructor; auto.
Qed.

(* ===================================================================== *)
(** ** The reclassification pass, row by row *)
(* ===================================================================== *)

Lemma loc_assign_map (m : Row -> bool) (set : Row -> Row) (g : Row -> Row)
      (rows : list Row) :
  loc_assign (map m rows) set (map g rows)
  = map (fun r => if m r then set (g r) else g r) rows.
Proof.
  induction rows as [| r rows IH]; simpl; auto. now rewrite IH.
Qed.

Lemma loc_assign_mask (m : Row -> bool) (set : Row -> Row) (rows : list Row) :
  loc_assign (map m rows) set rows = map (fun r => if m r then set r else r) rows.
Proof.
  induction rows as [| r rows IH]; simpl; auto. now rewrite IH.
Qed.

Lemma selected_rows_count (m : Row -> bool) (rows : list Row) :
  (0 <? List.length (filter (fun b : bool => b) (map m rows)))%nat = existsb m rows.
Proof.
  induction rows as [| r rows IH]; simpl; auto.
  destruct (m r); simpl; auto.
Qed.

Lemma map_reclass_row_unselected (rows : list Row) :
  existsb (fun r => ksf_mask r && marketed_as_qd r) rows = false ->
  map reclass_row rows = rows.
Proof.
  induction rows as [| r rows IH]; simpl; auto.
  intro H. apply orb_false_iff in H. destruct H as [Hr Hrows].
  rewrite (IH Hrows). unfold reclass_row. now rewrite Hr.
Qed.

(** The pass in one equation: it refuses the write of line 244 when a
    row is selected and the confidence column is float64 under a strict
    release, and is the row-wise pass otherwise. *)
Lemma reclassify_eq (strict_setitem spd_confidence_float64 : bool)
      (merged : list Row) :
  reclassify strict_setitem spd_confidence_float64 merged
  = if existsb (fun r => ksf_mask r && marketed_as_qd r) merged
       && (strict_setitem && spd_confidence_float64)
    then Raise TypeError
    else Ok (map reclass_row merged).
Proof.
  unfold reclassify, reclass_mask.
  rewrite selected_rows_count.
  destruct (existsb _ merged) eqn:Hselected; simpl.
  - destruct (strict_setitem && _); [reflexivity |].
    rewrite loc_assign_mask, loc_assign_map. f_equal.
    apply map_ext. intro r. unfold reclass_row.
    now destruct (ksf_mask r && marketed_as_qd r).
  - now rewrite map_reclass_row_unselected.
Qed.

Lemma reclassify_rows (strict_setitem spd_confidence_float64 : bool)
      (merged out : list Row) :
  reclassify strict_setitem spd_confidence_float64 merged = Ok out ->
  out = map reclass_row merged.
Proof.
  rewrite reclassify_eq. destruct (_ && _); [discriminate |].
  intro H. now injection H as <-.
Qed.

Lemma Forall2_map_right {A B : Type} (R : A -> B -> Prop) (f : A -> B) (xs : list A) :
  (forall x, In x xs -> R x (f x)) -> Forall2 R xs (map f xs).
Proof.
  induction xs as [| x xs IH]; simpl; intro H; constructor.
  - apply H. now left.
  - apply IH. intros y Hy. apply H. now right.
Qed.

Lemma reclass_row_selected (r : Row) :
  color_architecture r = PStr "KSF" ->
  In (marketing_label r) qled_marketing ->
  color_architecture (reclass_row r) = PStr "Pseudo QD"
  /\ spd_confidence (reclass_row r) = PStr "medium".
Proof.
  intros Hksf Hlabel. unfold reclass_row, ksf_mask, marketed_as_qd.
  apply py_eq_str_true in Hksf. apply isin_true in Hlabel.
  rewrite Hksf, Hlabel. simpl. auto.
Qed.

Lemma reclass_row_not_marketed (r : Row) :
  ~ In (marketing_label r) qled_marketing -> reclass_row r = r.
Proof.
  intro Hlabel. unfold reclass_row, marketed_as_qd.
  destruct (existsb _ qled_marketing) eqn:H.
  - apply isin_true in H. contradiction.
  - now rewrite andb_false_r.
Qed.

Lemma reclass_row_not_ksf (r : Row) :
  color_architecture r <> PStr "KSF" -> reclass_row r = r.
Proof.
  intro H. apply py_eq_str_false in H. unfold reclass_row, ksf_mask.
  now rewrite H.
Qed.

Lemma reclass_row_frame (r : Row) : same_outside_pass r (reclass_row r).
Proof.
  unfold reclass_row, same_outside_pass.
  destruct (ksf_mask r && marketed_as_qd r); simpl; repeat split; reflexivity.
Qed.

(* ===================================================================== *)
(** ** The reclassification rule *)
(* ===================================================================== *)

Lemma reclass_row_unselected (r : Row) :
  ksf_mask (reclass_row r) && marketed_as_qd (reclass_row r) = false.
Proof.
  unfold reclass_row.
  destruct (ksf_mask r && marketed_as_qd r) eqn:Hmask; [reflexivity | exact Hmask].
Qed.

Lemma reclass_row_twice (r : Row) : reclass_row (reclass_row r) = reclass_row r.
Proof.
  pose proof (reclass_row_unselected r) as H.
  unfold reclass_row at 1. now rewrite H.
Qed.

Lemma existsb_map_false {A : Type} (p : A -> bool) (f : A -> A) (xs : list A) :
  (forall x, p (f x) = false) -> existsb p (map f xs) = false.
Proof.
  intro H. induction xs as [| x xs IH]; simpl; auto. now rewrite H, IH.
Qed.

Lemma isin_qled_marketing (l : string) :
  In l qled_marketing <-> l = "QLED" \/ l = "QNED" \/ l = "ULED".
Proof.
  unfold qled_marketing. simpl. intuition congruence.
Qed.

(** C1, the code at the failing input.  The spectral table holds one
    KSF measurement, of a set marketed as QLED, and no confidence at
    all, so [spd_confidence] is a float64 column.  On a pandas release
    that refuses a str in a float64 column (3.0 and later) line 244
    raises TypeError and the run ends without an output frame: the row
    is not set to "medium".  On an earlier release the column is
    widened and the row comes out "Pseudo QD" with confidence
    "medium", as it does on every release once the spectral table holds
    a confidence that is text. *)
Theorem reclassify_refused_write :
  color_architecture ksf_qled_no_confidence = PStr "KSF"
  /\ marketing_label ksf_qled_no_confidence = "QLED"
  /\ float64_column (map (fun p : SpdRow => spd_confidence p) spd_no_confidence) = true
  /\ reclassify true true [ksf_qled_no_confidence] = Raise TypeError
  /\ build_schema decimal_reader decimal_reader true [samsung_q60] spd_no_confidence
     = Raise TypeError
  /\ (exists out,
        build_schema decimal_reader decimal_reader false [samsung_q60] spd_no_confidence
        = Ok out
        /\ map (fun c : Classified => (color_architecture c, spd_confidence c)) out
           = [ (PStr "Pseudo QD", PStr "medium") ])
  /\ (exists out,
        build_schema decimal_reader decimal_reader true [samsung_q60] spd_one_confidence
        = Ok out
        /\ map (fun c : Classified => (color_architecture c, spd_confidence c)) out
           = [ (PStr "Pseudo QD", PStr "medium") ]).
Proof.
  repeat split; eexists; split; reflexivity.
Qed.

(** C7.  Frame of the pass.  Row by row, a pass that returns has changed
    no column other than [color_architecture] and [spd_confidence], and
    nothing at all in a row it does not select: the raw
    [spd_classification], [marketing_label] and every other column are
    the same after it, so [spd_verified], computed from the raw
    [spd_classification], is the same whether it is read before or
    after the pass - also on a row that went from "KSF" to
    "Pseudo QD". *)
Theorem reclassify_frame (strict_setitem spd_confidence_float64 : bool)
        (merged out : list Row) :
  reclassify strict_setitem spd_confidence_float64 merged = Ok out ->
  Forall2
    (fun r r' : Row =>
       same_outside_pass r r'
       /\ (ksf_mask r && marketed_as_qd r = false -> r' = r)
       /\ spd_verified_of (spd_classification r')
          = spd_verified_of (spd_classification r)
       /\ (color_architecture r = PStr "KSF" ->
           color_architecture r' = PStr "Pseudo QD" ->
           spd_verified_of (spd_classification r')
           = spd_verified_of (spd_classification r)))
    merged out.
Proof.
  intro Hout. apply reclassify_rows in Hout. subst out.
  apply Forall2_map_right. intros r _.
  pose proof (reclass_row_frame r) as Hframe.
  assert (Hraw : spd_classification (reclass_row r) = spd_classification r)
    by apply Hframe.
  split; [exact Hframe |]. rewrite Hraw. split; [| split; auto].
  intro Hmask. unfold reclass_row. now rewrite Hmask.
Qed.

Lemma reclassify_frame_witness :
  exists out,
    reclassify true false [ksf_qled_row; ksf_plain_row] = Ok out
    /\ Forall2
         (fun r r' : Row =>
            same_outside_pass r r'
            /\ (ksf_mask r && marketed_as_qd r = false -> r' = r)
            /\ spd_verified_of (spd_classification r')
               = spd_verified_of (spd_classification r)
            /\ (color_architecture r = PStr "KSF" ->
                color_architecture r' = PStr "Pseudo QD" ->
                spd_verified_of (spd_classification r')
                = spd_verified_of (spd_classification r)))
         [ksf_qled_row; ksf_plain_row] out.
Proof.
  eexists. split; [reflexivity |].
  apply (reclassify_frame true false). reflexivity.
Defined.

(** The case of a reclassified row: its [color_architecture] changes,
    its [spd_verified] does not. *)
Example reclassified_row_keeps_spd_verified :
  map (fun r : Row => (color_architecture r, spd_verified_of (spd_classification r)))
      [ksf_qled_row; ksf_plain_row]
  = [(PStr "KSF", "Yes"); (PStr "KSF", "Yes")]
  /\ exists out,
       reclassify true false [ksf_qled_row; ksf_plain_row] = Ok out
       /\ map (fun r : Row =>
                 (color_architecture r, spd_verified_of (spd_classification r))) out
          = [(PStr "Pseudo QD", "Yes"); (PStr "KSF", "Yes")].
Proof. split; [reflexivity |]. eexists. split; reflexivity. Qed.

(** C8.  Idempotence of the pass.  Two passes in a row end as one pass
    does, in a frame or in the exception of the first; running the pass
    on its own result returns that result unchanged; and a row whose
    [color_architecture] is "Pseudo QD" is left as it is by the pass. *)
Theorem reclassify_idempotent (strict_setitem spd_confidence_float64 : bool)
        (merged : list Row) :
  (once <- reclassify strict_setitem spd_confidence_float64 merged ;;
   reclassify strict_setitem spd_confidence_float64 once)
  = reclassify strict_setitem spd_confidence_float64 merged
  /\ forall out,
       reclassify strict_setitem spd_confidence_float64 merged = Ok out ->
       (forall strict float64 : bool, reclassify strict float64 out = Ok out)
       /\ Forall2
            (fun r r' : Row => color_architecture r = PStr "Pseudo QD" -> r' = r)
            merged out.
Proof.
  assert (Hagain : forall out,
             reclassify strict_setitem spd_confidence_float64 merged = Ok out ->
             forall strict float64 : bool, reclassify strict float64 out = Ok out).
  { intros out Hout strict float64. apply reclassify_rows in Hout. subst out.
    rewrite reclassify_eq.
    rewrite (existsb_map_false _ reclass_row merged reclass_row_unselected).
    simpl. rewrite map_map. f_equal. apply map_ext. exact reclass_row_twice. }
  split.
  - destruct (reclassify strict_setitem spd_confidence_float64 merged)
      as [once | e] eqn:Hfirst; simpl.
    + now apply Hagain.
    + reflexivity.
  - intros out Hout. split; [now apply Hagain |].
    apply reclassify_rows in Hout. subst out.
    apply Forall2_map_right. intros r _ Hpseudo.
    apply reclass_row_not_ksf. rewrite Hpseudo. discriminate.
Qed.

Lemma reclassify_idempotent_witness :
  exists out,
    reclassify true false [ksf_qled_row; ksf_plain_row; pseudo_qd_row] = Ok out
    /\ (forall strict float64 : bool, reclassify strict float64 out = Ok out)
    /\ Forall2
         (fun r r' : Row => color_architecture r = PStr "Pseudo QD" -> r' = r)
         [ksf_qled_row; ksf_plain_row; pseudo_qd_row] out.
Proof.
  eexists. split; [reflexivity |].
  destruct (reclassify_idempotent true false
              [ksf_qled_row; ksf_plain_row; pseudo_qd_row]) as [_ Hagain].
  apply Hagain. reflexivity.
Defined.

(** Two passes over a frame with a row to reclassify, a KSF row that
    stays, and a row that is already "Pseudo QD"; and what the first
    pass reports. *)
Example reclassify_twice :
  exists once,
    reclassify true false [ksf_qled_row; ksf_plain_row; pseudo_qd_row] = Ok once
    /\ map (fun r : Row => (color_architecture r, spd_confidence r)) once
       = [ (PStr "Pseudo QD", PStr "medium"); (PStr "KSF", PStr "low");
           (PStr "Pseudo QD", PStr "high") ]
    /\ reclassify true false once = Ok once
    /\ reclass_report [ksf_qled_row; ksf_plain_row; pseudo_qd_row]
       = [ (PStr "Samsung Q60D QLED", "QLED") ]
    /\ reclass_report once = [].
Proof. eexists. split; [reflexivity |]. repeat split. Qed.

(** The rule of the pass, on a pass that returns.  The rows stay in
    place; a row whose [color_architecture] is "KSF" and whose
    [marketing_label] is QLED, QNED or ULED comes out with
    [color_architecture] "Pseudo QD" and [spd_confidence] "medium"; a
    row with any other label (the empty one included), and a row that
    is not "KSF", comes out as it went in. *)
Theorem reclassify_rule (strict_setitem spd_confidence_float64 : bool)
        (merged out : list Row) (i : nat) (r : Row) :
  reclassify strict_setitem spd_confidence_float64 merged = Ok out ->
  nth_error merged i = Some r ->
  exists r',
    nth_error out i = Some r'
    /\ (color_architecture r = PStr "KSF" ->
        marketing_label r = "QLED" \/ marketing_label r = "QNED"
        \/ marketing_label r = "ULED" ->
        color_architecture r' = PStr "Pseudo QD"
        /\ spd_confidence r' = PStr "medium")
    /\ (marketing_label r <> "QLED" -> marketing_label r <> "QNED" ->
        marketing_label r <> "ULED" -> r' = r)
    /\ (color_architecture r <> PStr "KSF" -> r' = r).
Proof.
  intros Hout Hi. apply reclassify_rows in Hout. subst out.
  exists (reclass_row r). split; [now apply map_nth_error |]. split; [| split].
  - intros Hksf Hlabel. apply reclass_row_selected; [exact Hksf |].
    now apply isin_qled_marketing.
  - intros H1 H2 H3. apply reclass_row_not_marketed.
    rewrite isin_qled_marketing. intuition.
  - apply reclass_row_not_ksf.
Qed.

Lemma reclassify_rule_witness :
  exists out,
    reclassify true false [ksf_qled_row; ksf_plain_row] = Ok out
    /\ (exists r',
          nth_error out 0 = Some r'
          /\ color_architecture r' = PStr "Pseudo QD"
          /\ spd_confidence r' = PStr "medium")
    /\ (exists r', nth_error out 1 = Some r' /\ r' = ksf_plain_row).
Proof.
  eexists. split; [reflexivity |]. split.
  - destruct (reclassify_rule true false [ksf_qled_row; ksf_plain_row] _ 0
                ksf_qled_row eq_refl eq_refl) as [r' [Hnth [Hselected _]]].
    exists r'. split; [exact Hnth |].
    apply Hselected; [reflexivity | left; reflexivity].
  - destruct (reclassify_rule true false [ksf_qled_row; ksf_plain_row] _ 1
                ksf_plain_row eq_refl eq_refl) as [r' [Hnth [_ [Hother _]]]].
    exists r'. split; [exact Hnth |].
    apply Hother; discriminate.
Defined.

(** When the pass raises: only TypeError, and exactly when the release
    refuses a str in a float64 column, [spd_confidence] is such a
    column, and some row is "KSF" with the label QLED, QNED or ULED. *)
Theorem reclassify_raises (strict_setitem spd_confidence_float64 : bool)
        (merged : list Row) (e : exn) :
  reclassify strict_setitem spd_confidence_float64 merged = Raise e <->
  e = TypeError
  /\ strict_setitem = true
  /\ spd_confidence_float64 = true
  /\ exists r, In r merged
               /\ color_architecture r = PStr "KSF"
               /\ (marketing_label r = "QLED" \/ marketing_label r = "QNED"
                   \/ marketing_label r = "ULED").
Proof.
  assert (Hselected : existsb (fun r => ksf_mask r && marketed_as_qd r) merged = true
                      <-> exists r, In r merged
                                    /\ color_architecture r = PStr "KSF"
                                    /\ (marketing_label r = "QLED"
                                        \/ marketing_label r = "QNED"
                                        \/ marketing_label r = "ULED")).
  { rewrite existsb_exists. split; intros [r [Hr H]]; exists r; split; auto.
    - apply andb_prop in H. destruct H as [Hksf Hlabel].
      apply py_eq_str_true in Hksf. apply isin_true in Hlabel.
      now apply isin_qled_marketing in Hlabel.
    - destruct H as [Hksf Hlabel]. apply andb_true_intro. split.
      + now apply py_eq_str_true.
      + apply isin_true. now apply isin_qled_marketing. }
  rewrite reclassify_eq.
  destruct (existsb _ merged) eqn:Hsel; simpl.
  - destruct strict_setitem, spd_confidence_float64; simpl.
    + split.
      * intro H. injection H as <-. repeat split. now apply Hselected.
      * intros [-> _]. reflexivity.
    + split; [discriminate | intros [_ [_ [H _]]]; discriminate].
    + split; [discriminate | intros [_ [H _]]; discriminate].
    + split; [discriminate | intros [_ [H _]]; discriminate].
  - split; [discriminate |].
    intros [_ [_ [_ Hrow]]]. apply Hselected in Hrow. discriminate.
Qed.

(** The pass when the write of line 244 would be refused: with a row to
    reclassify it raises, without one it returns the frame as it is. *)
Example reclassify_numeric_confidence :
  reclassify true true [ksf_qled_no_confidence] = Raise TypeError
  /\ reclassify true true
       [labelled_row insignia_f50 (spd_columns (PStr "KSF") NaN (PFloat 40)) ""]
     = Ok [labelled_row insignia_f50 (spd_columns (PStr "KSF") NaN (PFloat 40)) ""]
  /\ exists out,
       reclassify false true [ksf_qled_no_confidence] = Ok out
       /\ map (fun r : Row => (color_architecture r, spd_confidence r)) out
          = [ (PStr "Pseudo QD", PStr "medium") ].
Proof.
  split; [reflexivity |]. split; [reflexivity |].
  eexists. split; reflexivity.
Qed.

(* ===================================================================== *)
(** ** The rows of the output *)
(* ===================================================================== *)

Lemma Forall2_compose {A B C : Type} (R : A -> B -> Prop) (S : B -> C -> Prop)
      (xs : list A) (ys : list B) (zs : list C) :
  Forall2 R xs ys -> Forall2 S ys zs ->
  Forall2 (fun x z => exists y, R x y /\ S y z) xs zs.
Proof.
  intro H. revert zs. induction H as [| x y xs ys Hxy _ IH]; intros zs Hz.
  - inversion Hz. constructor.
  - inversion Hz as [| y' z ys' zs' Hyz Hrest]; subst.
    constructor; [exists y; auto | now apply IH].
Qed.

Lemma Forall2_in_right {A B : Type} (R : A -> B -> Prop)
      (xs : list A) (ys : list B) (y : B) :
  Forall2 R xs ys -> In y ys -> exists x, In x xs /\ R x y.
Proof.
  induction 1 as [| x y' xs ys Hxy _ IH]; simpl; intros Hin; [contradiction |].
  destruct Hin as [-> | Hin].
  - exists x. auto.
  - destruct (IH Hin) as [x' [Hx' HR]]. exists x'. auto.
Qed.

Lemma Forall2_right {A B : Type} (R : A -> B -> Prop) (P : B -> Prop)
      (xs : list A) (ys : list B) :
  Forall2 R xs ys -> (forall x y, R x y -> P y) -> Forall P ys.
Proof.
  intros H HP. induction H as [| x y xs ys Hxy _ IH]; constructor; eauto.
Qed.

Section Output.

Variable float_of_str : string -> option float.
Variable to_numeric_str : string -> option float.
Variable strict_setitem : bool.

Lemma parse_column_cells (raws : list pyval) (zones : list (option Z)) :
  parse_dimming_zone_column to_numeric_str raws = Ok zones ->
  Forall2 (fun raw z => parse_dimming_zone_count to_numeric_str raw = Ok z)
          raws zones.
Proof.
  unfold parse_dimming_zone_column, astype_Int64_column.
  destruct (mapM astype_Int64 _) as [cast | e] eqn:Hcast; [| discriminate].
  intro H. injection H as <-. apply mapM_Ok_Forall2 in Hcast.
  remember (map (to_numeric_coerce to_numeric_str) raws) as cells eqn:Hcells.
  revert raws Hcells.
  induction Hcast as [| f z cells cast Hf _ IH]; intros [| raw raws] Hcells;
    try discriminate; constructor.
  - injection Hcells as -> _. exact Hf.
  - injection Hcells as _ Hrest. now apply IH.
Qed.

Lemma staged_rows (merged : list Merged) (zones : list (option Z)) :
  Forall2 (fun (m : Merged) z =>
             parse_dimming_zone_count to_numeric_str (dimming_zone_count m) = Ok z)
          merged zones ->
  Forall2 (fun (m : Merged) (s : Staged) =>
             exists z,
               parse_dimming_zone_count to_numeric_str (dimming_zone_count m) = Ok z
               /\ s = stage m z)
          merged
          (map (fun mz : Merged * option Z => stage (fst mz) (snd mz))
               (combine merged zones)).
Proof.
  induction 1 as [| m z merged zones Hz _ IH]; simpl; constructor; eauto.
Qed.

Lemma Forall2_map_left {A B C : Type} (R : B -> C -> Prop) (f : A -> B)
      (xs : list A) (zs : list C) :
  Forall2 R (map f xs) zs -> Forall2 (fun x z => R (f x) z) xs zs.
Proof.
  revert zs. induction xs as [| x xs IH]; simpl; intros zs H;
    inversion H; subst; constructor; auto.
Qed.

Lemma build_schema_rows (tv_df : list TvRow) (spd_df : list SpdRow)
      (out : list Classified) :
  build_schema float_of_str to_numeric_str strict_setitem tv_df spd_df = Ok out ->
  Forall2 (output_of float_of_str to_numeric_str) (merge tv_df spd_df) out.
Proof.
  unfold build_schema. intro H.
  destruct (parse_dimming_zone_column _ _) as [zones | e] eqn:Hzones;
    simpl in H; try discriminate.
  destruct (mapM label _) as [labelled | e] eqn:Hlabelled;
    simpl in H; try discriminate.
  destruct (reclassify strict_setitem _ labelled) as [reclassified | e] eqn:Hpass;
    simpl in H; try discriminate.
  injection H as <-.
  apply reclassify_rows in Hpass. subst reclassified.
  apply parse_column_cells, Forall2_map_left, staged_rows in Hzones.
  apply mapM_Ok_Forall2 in Hlabelled.
  rewrite map_map.
  pose proof (Forall2_compose _ _ _ _ _ Hzones Hlabelled) as Hrows.
  pose proof (Forall2_map_right
                (fun (r : Row) (c : Classified) =>
                   c = classify float_of_str (reclass_row r))
                (fun r => classify float_of_str (reclass_row r)) labelled
                (fun r _ => eq_refl)) as Hout.
  pose proof (Forall2_compose _ _ _ _ _ Hrows Hout) as Hall.
  clear - Hall. induction Hall as [| m c ms cs Hmc _ IH]; constructor; auto.
  destruct Hmc as [r [[s [[zones [Hz ->]] Hr]] Hc]].
  unfold label in Hr.
  destruct (determine_marketing_label (stage m zones)) as [l | e] eqn:Hl;
    simpl in Hr; try discriminate.
  injection Hr as <-.
  exists zones, l. auto.
Qed.

End Output.

Lemma map_display_type_cases (panel : pyval) :
  map_display_type panel
  = if py_eq_str panel "OLED" then PStr "OLED" else PStr "LCD".
Proof.
  unfold map_display_type, series_map_dict. simpl.
  destruct (py_eq_str panel "OLED"); [reflexivity |].
  destruct (py_eq_str panel "LCD"); reflexivity.
Qed.

Lemma qd_present_of_Yes (x : pyval) :
  qd_present_of x = "Yes" <-> x = PStr "QD-LCD" \/ x = PStr "QD-OLED".
Proof.
  unfold qd_present_of.
  destruct (py_in x ["QD-LCD"; "QD-OLED"]) eqn:H.
  - apply py_in_true in H. destruct H as [lit [Hin ->]].
    split; [intros _ | reflexivity].
    simpl in Hin. destruct Hin as [<- | [<- | []]]; auto.
  - split; [discriminate |]. intro Hx.
    assert (Htrue : py_in x ["QD-LCD"; "QD-OLED"] = true).
    { apply py_in_true. destruct Hx as [-> | ->];
        [exists "QD-LCD" | exists "QD-OLED"]; simpl; auto. }
    congruence.
Qed.

Lemma qd_present_of_values (x : pyval) :
  qd_present_of x = "Yes" \/ qd_present_of x = "No".
Proof.
  unfold qd_present_of. destruct (py_in x _); auto.
Qed.

Section Invariants.

Variable float_of_str : string -> option float.
Variable to_numeric_str : string -> option float.
Variable strict_setitem : bool.

Lemma qd_material_needs_qd (r : Row) :
  qd_present_of (color_architecture r) = "No" ->
  determine_qd_material float_of_str r = PNone.
Proof.
  unfold qd_present_of, determine_qd_material.
  destruct (py_in (color_architecture r) ["QD-LCD"; "QD-OLED"]);
    [discriminate | reflexivity].
Qed.

(** C2.  Quantum-dot presence.  In every row of the output,
    [qd_present] is "Yes" exactly when the final [color_architecture]
    is "QD-LCD" or "QD-OLED", and "No" otherwise - so "No" on a row the
    pass turned into "Pseudo QD"; a [qd_material] that is not null
    comes with [qd_present] "Yes", and [qd_present] "No" comes with a
    null [qd_material]. *)
Theorem qd_present_invariant (tv_df : list TvRow) (spd_df : list SpdRow)
        (out : list Classified) :
  build_schema float_of_str to_numeric_str strict_setitem tv_df spd_df = Ok out ->
  Forall
    (fun c : Classified =>
       (qd_present c = "Yes" <->
        color_architecture c = PStr "QD-LCD"
        \/ color_architecture c = PStr "QD-OLED")
       /\ (qd_present c = "Yes" \/ qd_present c = "No")
       /\ (color_architecture c = PStr "Pseudo QD" -> qd_present c = "No")
       /\ (is_null (qd_material c) = false -> qd_present c = "Yes")
       /\ (qd_present c = "No" -> qd_material c = PNone))
    out.
Proof.
  intro H. apply build_schema_rows in H.
  apply (Forall2_right _ _ _ _ H). clear H.
  intros m c [zones [l [_ [_ ->]]]].
  set (r := reclass_row _). simpl.
  pose proof (qd_present_of_values (color_architecture r)) as Hvalues.
  repeat split.
  - apply qd_present_of_Yes.
  - apply qd_present_of_Yes.
  - exact Hvalues.
  - intro Hpseudo. rewrite Hpseudo. reflexivity.
  - intro Hmaterial. destruct Hvalues as [Hyes | Hno]; auto.
    rewrite (qd_material_needs_qd r Hno) in Hmaterial. discriminate.
  - apply qd_material_needs_qd.
Qed.

(** C6.  Display type.  In every row of the output, [display_type] is
    "OLED" exactly when [panel_type] is "OLED" and "LCD" for any other
    [panel_type], missing or unknown ones included, so it is never
    null; and on an "OLED" row the schema backlight type and the
    dimming zone count are null, whatever the raw values were. *)
Theorem display_type_invariant (tv_df : list TvRow) (spd_df : list SpdRow)
        (out : list Classified) :
  build_schema float_of_str to_numeric_str strict_setitem tv_df spd_df = Ok out ->
  Forall
    (fun c : Classified =>
       (display_type c = PStr "OLED" <-> panel_type c = PStr "OLED")
       /\ (panel_type c <> PStr "OLED" -> display_type c = PStr "LCD")
       /\ is_null (display_type c) = false
       /\ (display_type c = PStr "OLED" ->
           backlight_type_schema c = PNone
           /\ dimming_zone_count_Int64 c = None))
    out.
Proof.
  intro H. apply build_schema_rows in H.
  apply (Forall2_right _ _ _ _ H). clear H.
  intros m c [zones [l [_ [_ ->]]]].
  set (r0 := {| staged_of := stage m zones; marketing_label := l |}).
  destruct (reclass_row_frame r0)
    as [Htv [_ [_ [_ [_ [_ [_ [_ [_ [_ [_ [_ [Hdisplay [Hbacklight [Hzones _]]]]]]]]]]]]]]].
  cbn [row_of staged_of merged_of] in *.
  change (display_type (reclass_row r0)
          = map_display_type (panel_type m)) in Hdisplay.
  change (backlight_type_schema (reclass_row r0)
          = map_backlight_type (backlight_type m) (panel_type m)) in Hbacklight.
  change (dimming_zone_count_Int64 (reclass_row r0)
          = if py_eq_str (map_display_type (panel_type m)) "OLED"
            then None else zones) in Hzones.
  change (tv_of (reclass_row r0) = tv_of m) in Htv.
  unfold classify; cbn [row_of].
  rewrite Hdisplay, Hbacklight, Hzones, Htv, map_display_type_cases.
  unfold map_backlight_type.
  destruct (py_eq_str (panel_type m) "OLED") eqn:Hpanel.
  - apply py_eq_str_true in Hpanel. repeat split; auto.
    intro Hne. contradiction.
  - apply py_eq_str_false in Hpanel. repeat split; auto; try discriminate.
    intro Hp. contradiction.
Qed.

End Invariants.

Lemma qd_present_invariant_witness :
  build_schema decimal_reader decimal_reader true sample_tv sample_spd = Ok sample_output
  /\ Forall
       (fun c : Classified =>
          (qd_present c = "Yes" <->
           color_architecture c = PStr "QD-LCD"
           \/ color_architecture c = PStr "QD-OLED")
          /\ (qd_present c = "Yes" \/ qd_present c = "No")
          /\ (color_architecture c = PStr "Pseudo QD" -> qd_present c = "No")
          /\ (is_null (qd_material c) = false -> qd_present c = "Yes")
          /\ (qd_present c = "No" -> qd_material c = PNone))
       sample_output.
Proof.
  split; [reflexivity |].
  apply (qd_present_invariant decimal_reader decimal_reader true sample_tv sample_spd).
  reflexivity.
Defined.

Lemma display_type_invariant_witness :
  build_schema decimal_reader decimal_reader true sample_tv sample_spd = Ok sample_output
  /\ Forall
       (fun c : Classified =>
          (display_type c = PStr "OLED" <-> panel_type c = PStr "OLED")
          /\ (panel_type c <> PStr "OLED" -> display_type c = PStr "LCD")
          /\ is_null (display_type c) = false
          /\ (display_type c = PStr "OLED" ->
              backlight_type_schema c = PNone
              /\ dimming_zone_count_Int64 c = None))
       sample_output.
Proof.
  split; [reflexivity |].
  apply (display_type_invariant decimal_reader decimal_reader true sample_tv sample_spd).
  reflexivity.
Defined.

(** The scenario of the OLED row: raw dimming zone count 8294400, and
    both derived columns null in the output. *)
Example oled_row_scenario :
  map (fun c : Classified =>
         (display_type c, backlight_type_schema c, dimming_zone_count_Int64 c))
      (filter (fun c : Classified => (product_id c =? 2)%Z) sample_output)
  = [ (PStr "OLED", PNone, None) ].
Proof. reflexivity. Qed.

(* ===================================================================== *)
(** ** The schema merge *)
(* ===================================================================== *)

Lemma filter_same_key_unique (t : TvRow) (spd_df : list SpdRow) :
  NoDup (map spd_product_id spd_df) ->
  filter (same_key t) spd_df
  = match find (same_key t) spd_df with
    | Some p => [p]
    | None => []
    end.
Proof.
  induction spd_df as [| p rest IH]; simpl; intro Hnodup; auto.
  inversion Hnodup as [| k ks Hnotin Hrest]; subst.
  destruct (same_key t p) eqn:Hkey.
  - f_equal. destruct (filter (same_key t) rest) as [| q qs] eqn:Hfilter; auto.
    exfalso. apply Hnotin.
    assert (Hq : In q (filter (same_key t) rest)) by (rewrite Hfilter; now left).
    apply filter_In in Hq. destruct Hq as [Hin Hq].
    unfold same_key in Hkey, Hq. apply Z.eqb_eq in Hkey, Hq.
    rewrite Hkey, <- Hq. now apply in_map.
  - now apply IH.
Qed.

Lemma find_same_key_unique (t : TvRow) (p : SpdRow) (spd_df : list SpdRow) :
  NoDup (map spd_product_id spd_df) ->
  In p spd_df -> spd_product_id p = product_id t ->
  find (same_key t) spd_df = Some p.
Proof.
  induction spd_df as [| q rest IH]; simpl; intros Hnodup Hin Hkey; [contradiction |].
  inversion Hnodup as [| k ks Hnotin Hrest]; subst.
  destruct Hin as [-> | Hin].
  - unfold same_key. rewrite Hkey, Z.eqb_refl. reflexivity.
  - destruct (same_key t q) eqn:Hq.
    + exfalso. apply Hnotin. unfold same_key in Hq. apply Z.eqb_eq in Hq.
      rewrite Hq, <- Hkey. now apply in_map.
    + now apply IH.
Qed.

Lemma merge_row_unique (t : TvRow) (spd_df : list SpdRow) :
  NoDup (map spd_product_id spd_df) ->
  merge_row spd_df t = [left_join_row spd_df t].
Proof.
  intro Hnodup. unfold merge_row, left_join_row.
  rewrite (filter_same_key_unique t spd_df Hnodup).
  destruct (find (same_key t) spd_df); reflexivity.
Qed.

Lemma flat_map_ext_in {A B : Type} (f g : A -> list B) (xs : list A) :
  (forall x, In x xs -> f x = g x) -> flat_map f xs = flat_map g xs.
Proof.
  induction xs as [| x xs IH]; simpl; intro H; auto.
  rewrite (H x) by now left. f_equal. apply IH. intros y Hy. apply H. now right.
Qed.

Lemma flat_map_single {A B : Type} (f : A -> B) (xs : list A) :
  flat_map (fun x => [f x]) xs = map f xs.
Proof.
  induction xs as [| x xs IH]; simpl; congruence.
Qed.

Lemma merge_row_drops_orphan (t : TvRow) (p : SpdRow) (spd1 spd2 : list SpdRow) :
  product_id t <> spd_product_id p ->
  merge_row (spd1 ++ p :: spd2) t = merge_row (spd1 ++ spd2) t.
Proof.
  intro Hne. unfold merge_row. rewrite !filter_app. simpl.
  assert (Hkey : same_key t p = false).
  { unfold same_key. apply Z.eqb_neq. congruence. }
  now rewrite Hkey.
Qed.

Lemma length_filter_map {A B : Type} (P : B -> bool) (f : A -> B) (xs : list A) :
  List.length (filter P (map f xs)) = List.length (filter (fun x => P (f x)) xs).
Proof.
  induction xs as [| x xs IH]; simpl; auto.
  destruct (P (f x)); simpl; now rewrite IH.
Qed.

(** C9 (as amended).  Left join.  When the spectral table holds at most
    one row per [product_id], the merge gives exactly one row per
    specification row, in order: the specification row with the
    spectral columns of its match, or with null spectral columns when
    no spectral row has its [product_id]; so a [product_id] that occurs
    k times in the specification table occurs k times in the result.
    A spectral row whose [product_id] no specification row has changes
    nothing, whatever the tables are. *)
Theorem merge_left_join (tv_df : list TvRow) (spd_df : list SpdRow) :
  NoDup (map spd_product_id spd_df) ->
  merge tv_df spd_df = map (left_join_row spd_df) tv_df
  /\ List.length (merge tv_df spd_df) = List.length tv_df
  /\ map tv_of (merge tv_df spd_df) = tv_df
  /\ (forall (i : nat) (t : TvRow) (p : SpdRow),
        nth_error tv_df i = Some t ->
        In p spd_df -> spd_product_id p = product_id t ->
        nth_error (merge tv_df spd_df) i = Some {| tv_of := t; spd_of := p |})
  /\ (forall (i : nat) (t : TvRow),
        nth_error tv_df i = Some t ->
        (forall p, In p spd_df -> spd_product_id p <> product_id t) ->
        nth_error (merge tv_df spd_df) i
        = Some {| tv_of := t; spd_of := null_spd |})
  /\ (forall k : Z,
        List.length (filter (fun m : Merged => (product_id m =? k)%Z)
                            (merge tv_df spd_df))
        = List.length (filter (fun t : TvRow => (product_id t =? k)%Z) tv_df))
  /\ (forall (p : SpdRow) (spd1 spd2 : list SpdRow),
        (forall t, In t tv_df -> product_id t <> spd_product_id p) ->
        merge tv_df (spd1 ++ p :: spd2) = merge tv_df (spd1 ++ spd2)).
Proof.
  intro Hnodup.
  assert (Hmerge : merge tv_df spd_df = map (left_join_row spd_df) tv_df).
  { unfold merge. rewrite <- flat_map_single. apply flat_map_ext_in.
    intros t _. now apply merge_row_unique. }
  split; [exact Hmerge |]. rewrite Hmerge.
  split; [apply length_map |].
  split; [rewrite map_map; simpl; apply map_id |].
  split; [| split; [| split]].
  - intros i t p Hi Hin Hkey. rewrite (map_nth_error _ _ _ Hi). f_equal.
    unfold left_join_row.
    now rewrite (find_same_key_unique t p spd_df Hnodup Hin Hkey).
  - intros i t Hi Hnone. rewrite (map_nth_error _ _ _ Hi). f_equal.
    unfold left_join_row.
    destruct (find (same_key t) spd_df) as [p |] eqn:Hfind; auto.
    apply find_some in Hfind. destruct Hfind as [Hin Hkey].
    unfold same_key in Hkey. apply Z.eqb_eq in Hkey.
    exfalso. now apply (Hnone p Hin).
  - intro k. now rewrite length_filter_map.
  - intros p spd1 spd2 Horphan. unfold merge. apply flat_map_ext_in.
    intros t Ht. apply merge_row_drops_orphan. now apply Horphan.
Qed.

Lemma merge_left_join_witness :
  NoDup (map spd_product_id sample_spd)
  /\ merge sample_tv sample_spd = map (left_join_row sample_spd) sample_tv
  /\ List.length (merge sample_tv sample_spd) = 5%nat
  /\ nth_error (merge sample_tv sample_spd) 2
     = Some {| tv_of := hisense_u8;
               spd_of := spd_row 3 "QD-LCD" "high" (PFloat 25) |}
  /\ nth_error (merge sample_tv sample_spd) 3
     = Some {| tv_of := vizio_m; spd_of := null_spd |}
  /\ merge sample_tv sample_spd
     = merge sample_tv (firstn 4 sample_spd).
Proof.
  assert (Hnodup : NoDup (map spd_product_id sample_spd)).
  { simpl. repeat constructor; simpl; intuition discriminate. }
  destruct (merge_left_join sample_tv sample_spd Hnodup)
    as [Hmerge [Hlength [_ [Hmatch [Hnull [_ Horphan]]]]]].
  split; [exact Hnodup |]. split; [exact Hmerge |]. split; [exact Hlength |].
  split; [| split].
  - apply Hmatch; [reflexivity | simpl; auto | reflexivity].
  - apply Hnull; [reflexivity |]. simpl. intuition (subst; discriminate).
  - apply (Horphan (spd_row 9 "QD-OLED" "high" (PFloat 33)) (firstn 4 sample_spd) []).
    simpl. intuition (subst; discriminate).
Defined.

(** C9, the claim as stated fails: one specification row and two
    spectral rows with its [product_id] give two merged rows. *)
Lemma merge_duplicate_spectral_rows :
  List.length [samsung_q60] = 1%nat
  /\ List.length (merge [samsung_q60] twice_measured) = 2%nat
  /\ map (fun m : Merged => spd_classification m) (merge [samsung_q60] twice_measured)
     = [PStr "KSF"; PStr "QD-LCD"].
Proof. repeat split. Qed.

(* ===================================================================== *)
(** ** The marketing label *)
(* ===================================================================== *)

(** C5 (as amended).  Inputs of the marketing label.  Two rows that
    agree on [brand], [fullname] and [color_architecture] get the same
    result from [determine_marketing_label] (the same label, or the
    same exception); for a brand other than Samsung, Sony and Hisense,
    agreeing on [brand] and [fullname] is enough. *)
Theorem marketing_label_inputs (r1 r2 : Staged) :
  brand r1 = brand r2 ->
  fullname r1 = fullname r2 ->
  color_architecture r1 = color_architecture r2
  \/ py_in (brand r1) ["Samsung"; "Sony"; "Hisense"] = false ->
  determine_marketing_label r1 = determine_marketing_label r2.
Proof.
  intros Hbrand Hname [Hcolor | Hother]; unfold determine_marketing_label.
  - now rewrite Hbrand, Hname, Hcolor.
  - rewrite <- Hbrand, <- Hname.
    unfold py_in in Hother. simpl in Hother.
    apply orb_false_iff in Hother. destruct Hother as [Hsamsung Hother].
    apply orb_false_iff in Hother. destruct Hother as [Hsony Hother].
    apply orb_false_iff in Hother. destruct Hother as [Hhisense _].
    unfold other_brand_label. now rewrite Hsamsung, Hsony, Hhisense.
Qed.

Lemma marketing_label_inputs_witness :
  determine_marketing_label
    (stage {| tv_of := hisense_u8;
              spd_of := spd_columns (PStr "QD-LCD") (PStr "high") (PFloat 25) |}
           (Some 1296%Z))
  = determine_marketing_label
      (stage {| tv_of := hisense_u8;
                spd_of := spd_columns (PStr "QD-LCD") (PStr "low") NaN |}
             None).
Proof.
  apply marketing_label_inputs; [reflexivity | reflexivity | left; reflexivity].
Defined.

(** C5, the claim as stated fails: two sets of one brand and name, one
    classified QD-OLED and one WOLED, get different labels. *)
Lemma marketing_label_reads_color_architecture :
  exists c1 c2 : Classified,
    build_schema decimal_reader decimal_reader true [sony_a95 1; sony_a95 2] sony_spd
    = Ok [c1; c2]
    /\ brand c1 = brand c2
    /\ fullname c1 = fullname c2
    /\ marketing_label c1 = "QD-OLED"
    /\ marketing_label c2 = "OLED".
Proof.
  eexists. eexists. split; [vm_compute; reflexivity |]. repeat split.
Qed.

(* ===================================================================== *)
(** ** Parsing the dimming zone count *)
(* ===================================================================== *)

Section DimmingZones.

Variable to_numeric_str : string -> option float.

Lemma parse_castable (raw : pyval) :
  castable (to_numeric_coerce to_numeric_str raw) = true ->
  exists zones, parse_dimming_zone_count to_numeric_str raw = Ok zones.
Proof.
  unfold castable, parse_dimming_zone_count, astype_Int64.
  destruct (PrimFloat.is_nan _); simpl; [eauto |].
  destruct (float_integer_value _) as [z |]; [| discriminate].
  intros ->. eauto.
Qed.

(** C10 (as amended).  Parsing the dimming zone count.  A raw value that
    is missing (None or NaN) or is text that is not a number parses to
    null; a number that is equal to an int64 integer parses to that
    integer, whatever its sign; and a column of such values parses
    without an exception, cell by cell. *)
Theorem dimming_zone_count_parse :
  (forall raw : pyval,
      is_null raw = true
      \/ (exists s, raw = PStr s /\ to_numeric_str s = None) ->
      parse_dimming_zone_count to_numeric_str raw = Ok None)
  /\ (forall (raw : pyval) (z : Z),
        PrimFloat.is_nan (to_numeric_coerce to_numeric_str raw) = false ->
        float_integer_value (to_numeric_coerce to_numeric_str raw) = Some z ->
        (int64_min <= z <= int64_max)%Z ->
        parse_dimming_zone_count to_numeric_str raw = Ok (Some z))
  /\ (forall raws : list pyval,
        Forall (fun raw => castable (to_numeric_coerce to_numeric_str raw) = true) raws ->
        exists zones,
          mapM (parse_dimming_zone_count to_numeric_str) raws = Ok zones
          /\ List.length zones = List.length raws).
Proof.
  split; [| split].
  - intros raw [Hnull | [s [-> Htext]]].
    + destruct raw as [| f | s]; simpl in Hnull; try discriminate.
      * reflexivity.
      * unfold parse_dimming_zone_count, astype_Int64. simpl. now rewrite Hnull.
    + unfold parse_dimming_zone_count. simpl. rewrite Htext. reflexivity.
  - intros raw z Hnan Hvalue [Hmin Hmax].
    unfold parse_dimming_zone_count, astype_Int64. rewrite Hnan, Hvalue.
    apply Z.leb_le in Hmin, Hmax. now rewrite Hmin, Hmax.
  - induction raws as [| raw raws IH]; intro Hall.
    + exists []. split; reflexivity.
    + inversion Hall as [| x xs Hraw Hrest]; subst.
      destruct (parse_castable raw Hraw) as [zone Hzone].
      destruct (IH Hrest) as [zones [Hzones Hlength]].
      exists (zone :: zones). simpl. rewrite Hzone, Hzones. simpl.
      split; [reflexivity | now rewrite Hlength].
Qed.

End DimmingZones.

(** The parse on raw values: text that is a count, text that is not a
    number, missing values, and a count in a numeric column. *)
Example dimming_zone_count_samples :
  map (parse_dimming_zone_count decimal_reader)
      [PStr "8294400"; PStr "1296"; PStr "unknown"; NaN; PNone; PFloat 384]
  = [Ok (Some 8294400%Z); Ok (Some 1296%Z); Ok None; Ok None; Ok None;
     Ok (Some 384%Z)].
Proof. reflexivity. Qed.

Lemma dimming_zone_count_parse_witness :
  parse_dimming_zone_count decimal_reader (PStr "unknown") = Ok None
  /\ parse_dimming_zone_count decimal_reader (PStr "1296") = Ok (Some 1296%Z)
  /\ exists zones,
       mapM (parse_dimming_zone_count decimal_reader)
            (map dimming_zone_count sample_tv) = Ok zones
       /\ List.length zones = List.length (map dimming_zone_count sample_tv).
Proof.
  destruct (dimming_zone_count_parse decimal_reader) as [Hnull [Hinteger Hcolumn]].
  split; [| split].
  - apply Hnull. right. exists "unknown". split; reflexivity.
  - apply Hinteger; [reflexivity | reflexivity |].
    unfold int64_min, int64_max. lia.
  - apply Hcolumn. repeat constructor.
Defined.

(** The cast on columns it refuses: a fraction, an infinite cell, and
    both. *)
Example astype_Int64_refused :
  astype_Int64_column [12.5%float; 3%float] = Raise TypeError
  /\ astype_Int64_column [3%float; infinity] = Raise OverflowError
  /\ astype_Int64_column [12.5%float; infinity; nan] = Raise OverflowError
  /\ astype_Int64_column [nan; 3%float] = Ok [None; Some 3%Z].
Proof. repeat split. Qed.

(** C10, the claim as stated fails: a negative count parses to a
    negative integer, and a fractional count makes the cast, and with
    it the whole run, raise. *)
Lemma dimming_zone_count_not_total :
  parse_dimming_zone_count decimal_reader (dimming_zone_count negative_zones)
  = Ok (Some (-5)%Z)
  /\ parse_dimming_zone_count decimal_reader (dimming_zone_count fractional_zones)
     = Raise TypeError
  /\ build_schema decimal_reader decimal_reader true [fractional_zones] []
     = Raise TypeError.
Proof. repeat split. Qed.

(* ===================================================================== *)
(** ** Missing values in the spectral columns *)
(* ===================================================================== *)

(** C3, the code at the failing input.  A Hisense QD-LCD row whose green
    FWHM is missing holds NaN in that cell; [float] accepts NaN, the
    comparison with 28 is false, and the row gets "InP" - the brand
    fallback of lines 81-85, which gives Hisense "CdSe", is not
    reached. *)
Theorem qd_material_missing_fwhm (float_of_str : string -> option float) :
  color_architecture hisense_qd_no_fwhm = PStr "QD-LCD"
  /\ brand hisense_qd_no_fwhm = PStr "Hisense"
  /\ is_null (green_fwhm_nm hisense_qd_no_fwhm) = true
  /\ determine_qd_material float_of_str hisense_qd_no_fwhm = PStr "InP".
Proof. repeat split. Qed.

(** C4, the code at the failing input.  A specification row without a
    spectral match holds NaN in [spd_classification]; NaN is true as a
    condition, is not one of the two sentinels, and prints as "nan", so
    the row gets [spd_verified] "Yes". *)
Theorem spd_verified_missing_classification
        (float_of_str to_numeric_str : string -> option float)
        (strict_setitem : bool) :
  exists c : Classified,
    build_schema float_of_str to_numeric_str strict_setitem [vizio_m] [] = Ok [c]
    /\ is_null (spd_classification c) = true
    /\ spd_verified c = "Yes".
Proof.
  eexists. split; [reflexivity |]. split; reflexivity.
Qed.

(* ===================================================================== *)
(** ** Further properties of the derivation rules *)
(* ===================================================================== *)

Section Materials.

Variable float_of_str : string -> option float.
Variable to_numeric_str : string -> option float.
Variable strict_setitem : bool.

(** The chain of [determine_qd_material] as the code runs it: null
    outside QD-LCD and QD-OLED; "InP" for QD-OLED; for QD-LCD, "InP" for
    the five brands of line 67, else by the green FWHM when [float]
    accepts the cell ("CdSe" when it is below 28, "InP" otherwise, NaN
    included), else "CdSe" for Hisense and TCL and "Unknown" for any
    other brand. *)
Theorem qd_material_chain (row : Row) :
  (py_in (color_architecture row) ["QD-LCD"; "QD-OLED"] = false ->
   determine_qd_material float_of_str row = PNone)
  /\ (color_architecture row = PStr "QD-OLED" ->
      determine_qd_material float_of_str row = PStr "InP")
  /\ (color_architecture row = PStr "QD-LCD" ->
      py_in (brand row) ["Samsung"; "Sony"; "LG"; "Panasonic"; "Philips"] = true ->
      determine_qd_material float_of_str row = PStr "InP")
  /\ (color_architecture row = PStr "QD-LCD" ->
      py_in (brand row) ["Samsung"; "Sony"; "LG"; "Panasonic"; "Philips"] = false ->
      forall g_fwhm,
        py_float float_of_str (green_fwhm_nm row) = Ok g_fwhm ->
        determine_qd_material float_of_str row
        = if (g_fwhm <? 28)%float then PStr "CdSe" else PStr "InP")
  /\ (color_architecture row = PStr "QD-LCD" ->
      py_in (brand row) ["Samsung"; "Sony"; "LG"; "Panasonic"; "Philips"] = false ->
      forall e,
        py_float float_of_str (green_fwhm_nm row) = Raise e ->
        determine_qd_material float_of_str row
        = if py_in (brand row) ["Hisense"; "TCL"] then PStr "CdSe"
          else PStr "Unknown").
Proof.
  unfold determine_qd_material. repeat split.
  - intros ->. reflexivity.
  - intros ->. reflexivity.
  - intros -> ->. reflexivity.
  - intros -> -> g_fwhm ->. reflexivity.
  - intros -> -> e ->. simpl. unfold py_in. simpl.
    destruct (py_eq_str (brand row) "Hisense"); [reflexivity |].
    destruct (py_eq_str (brand row) "TCL"); reflexivity.
Qed.

(** [float] raises only what line 77 catches. *)
Lemma py_float_raises (v : pyval) (e : exn) :
  py_float float_of_str v = Raise e -> e = ValueError \/ e = TypeError.
Proof.
  destruct v as [| f | s]; simpl; intro H.
  - injection H as <-. now right.
  - discriminate.
  - destruct (float_of_str s); [discriminate |]. injection H as <-. now left.
Qed.

(** On a str, [spd_verified] is "Yes" exactly for text that is not
    empty, is not NO_SPD_IMAGE and does not begin with ERROR. *)
Theorem spd_verified_of_text (s : string) :
  spd_verified_of (PStr s) = "Yes"
  <-> s <> "" /\ s <> "NO_SPD_IMAGE" /\ String.prefix "ERROR" s = false.
Proof.
  unfold spd_verified_of, py_in. simpl.
  destruct (String.eqb_spec s "") as [-> | Hempty].
  - simpl. split; [discriminate | intros [H _]; now elim H].
  - destruct (String.eqb_spec s "NO_SPD_IMAGE") as [-> | Hsentinel].
    + simpl. split; [discriminate | intros [_ [H _]]; now elim H].
    + simpl. destruct (String.prefix "ERROR" s); simpl.
      * split; [discriminate | intros [_ [_ H]]; discriminate].
      * split; auto.
Qed.

(** In the output, [spd_verified] is the function of lines 264-266 of
    the raw [spd_classification] the join put in the row, and that
    column is still what the join put there. *)
Theorem spd_verified_from_raw (tv_df : list TvRow) (spd_df : list SpdRow)
        (out : list Classified) :
  build_schema float_of_str to_numeric_str strict_setitem tv_df spd_df = Ok out ->
  Forall2
    (fun (m : Merged) (c : Classified) =>
       spd_classification c = spd_classification m
       /\ spd_verified c = spd_verified_of (spd_classification m))
    (merge tv_df spd_df) out.
Proof.
  intro H. apply build_schema_rows in H.
  induction H as [| m c ms cs Hmc _ IH]; constructor; auto.
  destruct Hmc as [zones [l [_ [_ ->]]]].
  set (r0 := {| staged_of := stage m zones; marketing_label := l |}).
  destruct (reclass_row_frame r0) as [_ [Hraw _]].
  change (spd_classification (reclass_row r0) = spd_classification m) in Hraw.
  unfold classify; cbn [row_of spd_verified]. now rewrite Hraw.
Qed.

End Materials.

Lemma spd_verified_from_raw_witness :
  build_schema decimal_reader decimal_reader true sample_tv sample_spd = Ok sample_output
  /\ Forall2
       (fun (m : Merged) (c : Classified) =>
          spd_classification c = spd_classification m
          /\ spd_verified c = spd_verified_of (spd_classification m))
       (merge sample_tv sample_spd) sample_output.
Proof.
  split; [reflexivity |].
  apply (spd_verified_from_raw decimal_reader decimal_reader true sample_tv sample_spd).
  reflexivity.
Defined.

(** The scenarios of the material rule and of [spd_verified]. *)
Example qd_material_scenarios :
  map (determine_qd_material decimal_reader)
      [ labelled_row hisense_u8 (spd_columns (PStr "QD-LCD") (PStr "high") (PFloat 25)) "ULED";
        labelled_row hisense_u8 (spd_columns (PStr "QD-LCD") (PStr "high") (PFloat 32)) "ULED";
        labelled_row samsung_q60 (spd_columns (PStr "QD-LCD") (PStr "high") (PFloat 20)) "QLED";
        labelled_row hisense_u8 (spd_columns (PStr "QD-LCD") (PStr "high") (PStr "n/m")) "ULED";
        labelled_row vizio_m (spd_columns (PStr "QD-LCD") (PStr "high") (PStr "n/m")) "";
        ksf_qled_row ]
  = [PStr "CdSe"; PStr "InP"; PStr "InP"; PStr "CdSe"; PStr "Unknown"; PNone].
Proof. reflexivity. Qed.

Example spd_verified_scenarios :
  map spd_verified_of [PStr ""; PStr "ERROR_NO_FIT"; PStr "NO_SPD_IMAGE"; PStr "WOLED"]
  = ["No"; "No"; "No"; "Yes"].
Proof. reflexivity. Qed.

(* ===================================================================== *)
(** ** When the run succeeds *)
(* ===================================================================== *)

Lemma determine_marketing_label_str (r : Staged) (s : string) :
  fullname r = PStr s -> exists l, determine_marketing_label r = Ok l.
Proof.
  intro Hname.
  unfold determine_marketing_label, samsung_label, lg_label, other_brand_label,
    orM, andM, notM, bind.
  rewrite Hname. simpl.
  repeat match goal with
         | |- context [if ?b then _ else _] => destruct b
         end; eauto.
Qed.

Lemma mapM_total {A B : Type} (f : A -> result B) (xs : list A) :
  Forall (fun x => exists y, f x = Ok y) xs ->
  exists ys, mapM f xs = Ok ys.
Proof.
  induction 1 as [| x xs [y Hy] _ [ys Hys]]; simpl.
  - eauto.
  - rewrite Hy, Hys. simpl. eauto.
Qed.

Lemma merge_row_tv (spd_df : list SpdRow) (t : TvRow) (m : Merged) :
  In m (merge_row spd_df t) -> tv_of m = t.
Proof.
  unfold merge_row. destruct (filter (same_key t) spd_df) as [| p ps].
  - intros [<- | []]. reflexivity.
  - intro Hin. apply in_map_iff in Hin. destruct Hin as [q [<- _]]. reflexivity.
Qed.

Lemma merge_tv_in (tv_df : list TvRow) (spd_df : list SpdRow) (m : Merged) :
  In m (merge tv_df spd_df) -> In (tv_of m) tv_df.
Proof.
  unfold merge. rewrite in_flat_map. intros [t [Ht Hm]].
  now rewrite (merge_row_tv spd_df t m Hm).
Qed.

Section Success.

Variable float_of_str : string -> option float.
Variable to_numeric_str : string -> option float.
Variable strict_setitem : bool.

Lemma parse_column_total (raws : list pyval) :
  Forall (fun raw => castable (to_numeric_coerce to_numeric_str raw) = true) raws ->
  exists zones,
    parse_dimming_zone_column to_numeric_str raws = Ok zones
    /\ Forall2 (fun raw z => parse_dimming_zone_count to_numeric_str raw = Ok z)
               raws zones.
Proof.
  intro Hall.
  assert (Hcast : exists zones,
             mapM astype_Int64 (map (to_numeric_coerce to_numeric_str) raws)
             = Ok zones).
  { induction Hall as [| raw raws Hraw _ [zones Hzones]]; simpl; [eauto |].
    destruct (parse_castable to_numeric_str raw Hraw) as [zone Hzone].
    unfold parse_dimming_zone_count in Hzone. rewrite Hzone, Hzones. simpl. eauto. }
  destruct Hcast as [zones Hzones].
  assert (Hcolumn : parse_dimming_zone_column to_numeric_str raws = Ok zones).
  { unfold parse_dimming_zone_column, astype_Int64_column. now rewrite Hzones. }
  exists zones. split; [exact Hcolumn |]. now apply parse_column_cells.
Qed.

(** [build_schema] builds the output frame, with one row per merged
    row, whenever every raw dimming zone count is a cell the cast
    accepts, every [fullname] is a str, and the write of line 244 cannot
    be refused: the pandas release widens a float64 column, or some
    confidence of the spectral table is text. *)
Theorem build_schema_succeeds (tv_df : list TvRow) (spd_df : list SpdRow) :
  Forall
    (fun t : TvRow =>
       castable (to_numeric_coerce to_numeric_str (dimming_zone_count t)) = true
       /\ exists s, fullname t = PStr s)
    tv_df ->
  strict_setitem = false
  \/ (exists (p : SpdRow) (s : string), In p spd_df /\ spd_confidence p = PStr s) ->
  exists out,
    build_schema float_of_str to_numeric_str strict_setitem tv_df spd_df = Ok out
    /\ List.length out = List.length (merge tv_df spd_df).
Proof.
  intros Hrows Hconfidence. rewrite Forall_forall in Hrows.
  destruct (parse_column_total
              (map (fun m : Merged => dimming_zone_count m) (merge tv_df spd_df)))
    as [zones [Hzones Hcells]].
  { apply Forall_forall. intros raw Hraw. apply in_map_iff in Hraw.
    destruct Hraw as [m [<- Hm]]. apply merge_tv_in in Hm.
    now destruct (Hrows _ Hm). }
  apply Forall2_map_left in Hcells.
  pose proof (staged_rows to_numeric_str _ _ Hcells) as Hstaged.
  set (staged := map (fun mz : Merged * option Z => stage (fst mz) (snd mz))
                     (combine (merge tv_df spd_df) zones)) in *.
  destruct (mapM_total label staged) as [labelled Hlabelled].
  { apply Forall_forall. intros s Hs.
    destruct (Forall2_in_right _ _ _ _ Hstaged Hs) as [m [Hm [z [_ ->]]]].
    apply merge_tv_in in Hm. destruct (Hrows _ Hm) as [_ [name Hname]].
    destruct (determine_marketing_label_str (stage m z) name Hname) as [l Hl].
    unfold label. rewrite Hl. simpl. eauto. }
  pose proof (mapM_Ok_Forall2 _ _ _ Hlabelled) as Hlabelled2.
  assert (Haccepted : strict_setitem
                      && float64_column
                           (map (fun p : SpdRow => spd_confidence p) spd_df)
                      = false).
  { destruct Hconfidence as [-> | [p [text [Hp Htext]]]]; [reflexivity |].
    apply andb_false_intro2. unfold float64_column.
    destruct (map _ spd_df) as [| v cells] eqn:Hcolumn; [reflexivity |].
    rewrite <- Hcolumn.
    destruct (forallb _ _) eqn:Hall; [| reflexivity].
    rewrite forallb_forall in Hall.
    specialize (Hall (PStr text)). simpl in Hall.
    symmetry. apply Hall. rewrite <- Htext.
    exact (in_map (fun p : SpdRow => spd_confidence p) spd_df p Hp). }
  exists (map (classify float_of_str) (map reclass_row labelled)).
  unfold build_schema. rewrite Hzones. simpl. fold staged.
  rewrite Hlabelled. simpl.
  rewrite reclassify_eq, Haccepted, andb_false_r. simpl.
  split; [reflexivity |].
  rewrite !length_map.
  apply Forall2_length in Hstaged, Hlabelled2. congruence.
Qed.

End Success.

Lemma build_schema_succeeds_witness :
  exists out,
    build_schema decimal_reader decimal_reader true sample_tv sample_spd = Ok out
    /\ List.length out = List.length (merge sample_tv sample_spd).
Proof.
  apply build_schema_succeeds.
  - repeat constructor; eexists; reflexivity.
  - right. exists (spd_row 1 "KSF" "high" (PFloat 31.5)), "high".
    split; [now left | reflexivity].
Defined.

(* ===================================================================== *)
(** ** The backlight mapping *)
(* ===================================================================== *)

(** Mapping a value that is already mapped changes nothing: the schema
    names "Direct-lit" and "Edge-lit", null, and any raw value the table
    does not know all pass through. *)
Theorem map_backlight_type_idempotent (rtings_value panel : pyval) :
  map_backlight_type (map_backlight_type rtings_value panel) panel
  = map_backlight_type rtings_value panel.
Proof.
  unfold map_backlight_type.
  destruct (py_eq_str panel "OLED"); [reflexivity |].
  destruct rtings_value as [| f | s]; try reflexivity.
  simpl.
  destruct (String.eqb s "Full-Array") eqn:E1; [reflexivity |].
  destruct (String.eqb s "Direct") eqn:E2; [reflexivity |].
  destruct (String.eqb s "Edge") eqn:E3; [reflexivity |].
  destruct (String.eqb s "No Backlight") eqn:E4; [reflexivity |].
  simpl. now rewrite E1, E2, E3, E4.
Qed.

(** The schema backlight type is null exactly for an OLED panel, for the
    raw value "No Backlight", and for a raw value that is itself null. *)
Theorem map_backlight_type_null (rtings_value panel : pyval) :
  is_null (map_backlight_type rtings_value panel) = true
  <-> panel = PStr "OLED"
      \/ rtings_value = PStr "No Backlight"
      \/ is_null rtings_value = true.
Proof.
  unfold map_backlight_type.
  destruct (py_eq_str panel "OLED") eqn:Hpanel.
  - apply py_eq_str_true in Hpanel. split; auto.
  - apply py_eq_str_false in Hpanel.
    destruct rtings_value as [| f | s]; simpl.
    + split; auto.
    + split; [auto |]. intros [H | [H | H]]; [contradiction | discriminate | exact H].
    + destruct (String.eqb s "Full-Array") eqn:E1.
      { apply String.eqb_eq in E1. subst. simpl.
        split; [discriminate |]. intros [H | [H | H]]; [contradiction | | ]; discriminate. }
      destruct (String.eqb s "Direct") eqn:E2.
      { apply String.eqb_eq in E2. subst. simpl.
        split; [discriminate |]. intros [H | [H | H]]; [contradiction | | ]; discriminate. }
      destruct (String.eqb s "Edge") eqn:E3.
      { apply String.eqb_eq in E3. subst. simpl.
        split; [discriminate |]. intros [H | [H | H]]; [contradiction | | ]; discriminate. }
      destruct (String.eqb s "No Backlight") eqn:E4.
      { apply String.eqb_eq in E4. subst. simpl. split; auto. }
      simpl. split; [discriminate |].
      intros [H | [H | H]]; [contradiction | | discriminate].
      injection H as ->. discriminate.
Qed.

(* ===================================================================== *)
(** ** The marketing label: vocabulary and exceptions *)
(* ===================================================================== *)

(** Case analysis over the rules, once the kind of [fullname] is known
    by [Hname]. *)
Ltac label_cases Hname :=
  unfold determine_marketing_label, samsung_label, lg_label, other_brand_label,
    orM, andM, notM, bind;
  rewrite Hname; simpl;
  repeat match goal with
         | |- context [if ?b then _ else _] => destruct b eqn:?
         end.

(** Whatever the row, a label that [determine_marketing_label] returns
    is one of fourteen strings, the empty one included; it is never
    null. *)
Theorem marketing_label_vocabulary (r : Staged) (l : string) :
  determine_marketing_label r = Ok l ->
  In l [ "Neo QLED"; "QLED"; "QD-OLED"; "Samsung OLED"; "Crystal UHD";
         "OLED evo"; "OLED"; "QNED"; "UHD"; "BRAVIA"; "ULED"; "CanvasTV";
         "XLED"; "" ].
Proof.
  destruct (fullname r) as [| f | s] eqn:Hname;
    label_cases Hname;
    intro H; try discriminate; injection H as <-; simpl; tauto.
Qed.

Lemma marketing_label_vocabulary_witness :
  determine_marketing_label
    (stage {| tv_of := hisense_u8;
              spd_of := spd_columns (PStr "QD-LCD") (PStr "high") (PFloat 25) |}
           (Some 1296%Z))
  = Ok "ULED"
  /\ In "ULED"
        [ "Neo QLED"; "QLED"; "QD-OLED"; "Samsung OLED"; "Crystal UHD";
          "OLED evo"; "OLED"; "QNED"; "UHD"; "BRAVIA"; "ULED"; "CanvasTV";
          "XLED"; "" ].
Proof.
  split; [reflexivity |].
  apply (marketing_label_vocabulary
           (stage {| tv_of := hisense_u8;
                     spd_of := spd_columns (PStr "QD-LCD") (PStr "high") (PFloat 25) |}
                  (Some 1296%Z))).
  reflexivity.
Defined.

Lemma label_without_name (r : Staged) :
  (forall s, fullname r <> PStr s) ->
  determine_marketing_label r
  = if py_in (brand r)
         ["Samsung"; "LG"; "Hisense"; "TCL"; "Panasonic"; "Sharp"; "Philips"]
    then Raise TypeError
    else if py_eq_str (brand r) "Sony"
         then (if py_eq_str (color_architecture r) "QD-OLED"
               then Ok "QD-OLED" else Raise TypeError)
         else Ok "".
Proof.
  intro Hname.
  destruct (fullname r) as [| f | s] eqn:Hn; [| | now elim (Hname s)];
    unfold determine_marketing_label, samsung_label, lg_label, other_brand_label,
      orM, andM, notM, bind, py_in;
    rewrite Hn; simpl;
    repeat match goal with
           | |- context [py_eq_str ?x ?y] =>
               destruct (py_eq_str x y) eqn:?; simpl
           end;
    try reflexivity;
    repeat match goal with
           | H : py_eq_str _ _ = true |- _ => apply py_eq_str_true in H
           end;
    congruence.
Qed.

(** The only exception [determine_marketing_label] raises is TypeError,
    and it raises exactly when [fullname] is not a str and the brand's
    rules read it: always for Samsung, LG, Hisense, TCL, Panasonic,
    Sharp and Philips, and for Sony unless the row is QD-OLED. *)
Theorem marketing_label_raises (r : Staged) :
  (forall e, determine_marketing_label r = Raise e -> e = TypeError)
  /\ ((exists e, determine_marketing_label r = Raise e)
      <-> (forall s, fullname r <> PStr s)
          /\ (py_in (brand r)
                ["Samsung"; "LG"; "Hisense"; "TCL"; "Panasonic"; "Sharp"; "Philips"]
              = true
              \/ (brand r = PStr "Sony"
                  /\ color_architecture r <> PStr "QD-OLED"))).
Proof.
  assert (Hstr : forall e, determine_marketing_label r = Raise e ->
                           forall s, fullname r <> PStr s).
  { intros e He s Hs.
    destruct (determine_marketing_label_str r s Hs) as [l Hl]. congruence. }
  split; [| split].
  - intros e He. rewrite (label_without_name r (Hstr e He)) in He.
    destruct (py_in _ _); [congruence |].
    destruct (py_eq_str (brand r) "Sony"); [| discriminate].
    destruct (py_eq_str (color_architecture r) "QD-OLED"); congruence.
  - intros [e He]. split; [exact (Hstr e He) |].
    rewrite (label_without_name r (Hstr e He)) in He.
    destruct (py_in _ _); [now left | right].
    destruct (py_eq_str (brand r) "Sony") eqn:Hsony; [| discriminate].
    destruct (py_eq_str (color_architecture r) "QD-OLED") eqn:Hcolor;
      [discriminate |].
    split; [now apply py_eq_str_true | now apply py_eq_str_false].
  - intros [Hname Hbrand]. rewrite (label_without_name r Hname).
    destruct Hbrand as [-> | [Hsony Hcolor]]; [eauto |].
    rewrite Hsony. simpl.
    apply py_eq_str_false in Hcolor. rewrite Hcolor. eauto.
Qed.

Lemma marketing_label_raises_witness :
  determine_marketing_label
    (stage {| tv_of := {| product_id := 8;
                          fullname := NaN;
                          brand := PStr "TCL";
                          panel_type := PStr "LCD";
                          backlight_type := PStr "Direct";
                          dimming_zone_count := NaN;
                          other_columns := [] |};
              spd_of := null_spd |} None)
  = Raise TypeError.
Proof.
  destruct (marketing_label_raises
              (stage {| tv_of := {| product_id := 8;
                                    fullname := NaN;
                                    brand := PStr "TCL";
                                    panel_type := PStr "LCD";
                                    backlight_type := PStr "Direct";
                                    dimming_zone_count := NaN;
                                    other_columns := [] |};
                        spd_of := null_spd |} None)) as [Honly [_ Hraises]].
  destruct Hraises as [e He].
  - split; [discriminate | left; reflexivity].
  - now rewrite He, (Honly e He).
Defined.

(** A label in [qled_marketing] comes only from the rules of Samsung,
    LG, Hisense and TCL. *)
Lemma qd_label_brands (r : Staged) (l : string) :
  determine_marketing_label r = Ok l ->
  In l qled_marketing ->
  py_in (brand r) ["Samsung"; "LG"; "Hisense"; "TCL"] = true.
Proof.
  unfold py_in, qled_marketing.
  destruct (fullname r) as [| f | s] eqn:Hname;
    label_cases Hname;
    intro H; try discriminate; injection H as <-;
    simpl; intro Hin;
    repeat match goal with
           | H : _ \/ _ |- _ => destruct H
           | H : False |- _ => contradiction
           end;
    try discriminate;
    repeat match goal with
           | H : py_eq_str _ _ = _ |- _ => rewrite H
           end;
    reflexivity.
Qed.

(** A Hisense row classified "KSF" always gets a label of
    [qled_marketing]. *)
Lemma hisense_ksf_label (r : Staged) (l : string) :
  brand r = PStr "Hisense" ->
  color_architecture r = PStr "KSF" ->
  determine_marketing_label r = Ok l ->
  In l qled_marketing.
Proof.
  intros Hbrand Hcolor.
  unfold determine_marketing_label, samsung_label, lg_label, other_brand_label,
    orM, andM, notM, bind.
  rewrite Hbrand, Hcolor. simpl.
  destruct (fullname r) as [| f | s]; simpl; try discriminate.
  destruct (str_contains "U8" s); simpl.
  - intro H. injection H as <-. simpl. auto.
  - destruct (str_contains "U9" s); intro H; injection H as <-; simpl; auto.
Qed.

(** The label does not change when the pass reclassifies the row: the
    rules tell "KSF" and "Pseudo QD" apart nowhere. *)
Lemma label_after_reclassification (r : Row) :
  determine_marketing_label (reclass_row r) = determine_marketing_label r.
Proof.
  unfold reclass_row.
  destruct (ksf_mask r && marketed_as_qd r) eqn:Hmask; [| reflexivity].
  apply andb_prop in Hmask. destruct Hmask as [Hksf _].
  apply py_eq_str_true in Hksf.
  unfold determine_marketing_label, samsung_label, other_brand_label.
  cbn [set_spd_confidence set_color_architecture staged_of merged_of tv_of
       color_architecture fullname brand].
  rewrite Hksf. reflexivity.
Qed.

(* ===================================================================== *)
(** ** What a run keeps, and what the pass can touch *)
(* ===================================================================== *)

Lemma astype_Int64_Ok (f : float) (zones : option Z) :
  astype_Int64 f = Ok zones ->
  (zones = None /\ PrimFloat.is_nan f = true)
  \/ (exists z, zones = Some z
                /\ PrimFloat.is_nan f = false
                /\ float_integer_value f = Some z
                /\ (int64_min <= z <= int64_max)%Z).
Proof.
  unfold astype_Int64. destruct (PrimFloat.is_nan f).
  - intro H. injection H as <-. now left.
  - destruct (float_integer_value f) as [z |];
      [| destruct (PrimFloat.is_infinity f); discriminate].
    destruct ((int64_min <=? z)%Z && (z <=? int64_max)%Z) eqn:Hrange;
      [| discriminate].
    intro H. injection H as <-. right. exists z.
    apply andb_prop in Hrange. destruct Hrange as [Hmin Hmax].
    apply Z.leb_le in Hmin, Hmax. auto.
Qed.

Section Run.

Variable float_of_str : string -> option float.
Variable to_numeric_str : string -> option float.
Variable strict_setitem : bool.

Lemma output_of_pass_outcome (m : Merged) (c : Classified) :
  output_of float_of_str to_numeric_str m c -> pass_outcome m c.
Proof.
  intros [zones [l [_ [_ ->]]]].
  set (r0 := {| staged_of := stage m zones; marketing_label := l |}).
  destruct (reclass_row_frame r0)
    as [_ [Hraw [_ [_ [_ [_ [_ [_ [_ [_ [_ [_ [_ [_ [_ Hlabel]]]]]]]]]]]]]]].
  unfold pass_outcome, classify. cbn [row_of].
  split; [exact Hraw |].
  replace (marketing_label (reclass_row r0)) with l by (symmetry; exact Hlabel).
  unfold reclass_row.
  destruct (ksf_mask r0 && marketed_as_qd r0) eqn:Hmask.
  - right. apply andb_prop in Hmask. destruct Hmask as [Hksf Hin].
    apply py_eq_str_true in Hksf. apply isin_true in Hin. auto.
  - left. split; [reflexivity |]. split; [reflexivity |].
    intros [Hksf Hin].
    assert (Htrue : ksf_mask r0 && marketed_as_qd r0 = true).
    { apply andb_true_intro. split.
      - now apply py_eq_str_true.
      - now apply isin_true. }
    congruence.
Qed.

(** The run keeps the merged frame row for row.  The output row in the
    place of a merged row holds the merged row's [product_id],
    [fullname], [brand], [panel_type], raw [backlight_type] and
    spectral peaks, widths, ground truth and match status;
    [spd_classification] is the raw class, and so is
    [color_architecture] with the confidence of the join, the one
    exception being a row of raw class "KSF" with the label QLED, QNED
    or ULED, which holds "Pseudo QD" and confidence "medium". *)
Theorem build_schema_passes_through (tv_df : list TvRow) (spd_df : list SpdRow)
        (out : list Classified) :
  build_schema float_of_str to_numeric_str strict_setitem tv_df spd_df = Ok out ->
  Forall2 passes_through (merge tv_df spd_df) out.
Proof.
  intro H. apply build_schema_rows in H.
  induction H as [| m c ms cs Hmc _ IH]; constructor; auto.
  pose proof (output_of_pass_outcome m c Hmc) as Hpass.
  destruct Hmc as [zones [l [_ [_ ->]]]].
  set (r0 := {| staged_of := stage m zones; marketing_label := l |}) in *.
  destruct (reclass_row_frame r0)
    as [Htv [_ [H1 [H2 [H3 [H4 [H5 [H6 [H7 [H8 [H9 _]]]]]]]]]]].
  change (tv_of (reclass_row r0) = tv_of m) in Htv.
  unfold passes_through. cbn [classify row_of] in *.
  unfold product_id, fullname, brand, panel_type, backlight_type.
  rewrite Htv.
  repeat match goal with
         | |- _ /\ _ => split; [first [reflexivity | assumption] |]
         end.
  exact Hpass.
Qed.

Lemma output_of_label (m : Merged) (c : Classified) :
  output_of float_of_str to_numeric_str m c ->
  determine_marketing_label c = Ok (marketing_label c).
Proof.
  intros [zones [l [_ [Hl ->]]]].
  set (r0 := {| staged_of := stage m zones; marketing_label := l |}).
  cbn [classify row_of].
  rewrite (label_after_reclassification r0).
  destruct (reclass_row_frame r0) as [_ [_ [_ [_ [_ [_ [_ [_ [_ [_ [_ [_ [_ [_ [_ Hlabel]]]]]]]]]]]]]]].
  rewrite Hlabel. exact Hl.
Qed.

(** In the output the label is the one the rules give the final row:
    reading [determine_marketing_label] again, after the pass, returns
    the [marketing_label] the row holds. *)
Theorem marketing_label_of_output (tv_df : list TvRow) (spd_df : list SpdRow)
        (out : list Classified) :
  build_schema float_of_str to_numeric_str strict_setitem tv_df spd_df = Ok out ->
  Forall (fun c : Classified =>
            determine_marketing_label c = Ok (marketing_label c)) out.
Proof.
  intro H. apply build_schema_rows in H.
  apply (Forall2_right _ _ _ _ H). exact output_of_label.
Qed.

(** What the pass leaves behind in the output: no row is both "KSF" and
    labelled QLED, QNED or ULED; no Hisense row is "KSF"; and a row
    that went from "KSF" to "Pseudo QD" is a Samsung, LG, Hisense or
    TCL row. *)
Theorem reclassified_rows_of_output (tv_df : list TvRow) (spd_df : list SpdRow)
        (out : list Classified) :
  build_schema float_of_str to_numeric_str strict_setitem tv_df spd_df = Ok out ->
  Forall (fun c : Classified =>
            (color_architecture c = PStr "KSF" ->
             ~ In (marketing_label c) qled_marketing)
            /\ (brand c = PStr "Hisense" -> color_architecture c <> PStr "KSF")
            /\ (spd_classification c = PStr "KSF" ->
                color_architecture c = PStr "Pseudo QD" ->
                py_in (brand c) ["Samsung"; "LG"; "Hisense"; "TCL"] = true))
         out.
Proof.
  intro H. apply build_schema_rows in H.
  apply (Forall2_right _ _ _ _ H). clear H. intros m c Hmc.
  pose proof (output_of_label m c Hmc) as Hlabels.
  destruct (output_of_pass_outcome m c Hmc) as [Hraw Hcase].
  assert (Hnot : color_architecture c = PStr "KSF" ->
                 ~ In (marketing_label c) qled_marketing).
  { intros Hksf Hin. destruct Hcase as [[Hcolor [_ Hno]] | [_ [_ [Hpseudo _]]]].
    - apply Hno. split; [congruence | exact Hin].
    - congruence. }
  split; [exact Hnot |]. split.
  - intros Hbrand Hksf.
    exact (Hnot Hksf (hisense_ksf_label c _ Hbrand Hksf Hlabels)).
  - intros Hksf Hpseudo.
    destruct Hcase as [[Hcolor _] | [_ [Hin _]]].
    + rewrite Hraw in Hksf. congruence.
    + exact (qd_label_brands c _ Hlabels Hin).
Qed.

Lemma determine_qd_material_values (r : Row) :
  In (determine_qd_material float_of_str r)
     [PNone; PStr "InP"; PStr "CdSe"; PStr "Unknown"]
  /\ (qd_present_of (color_architecture r) = "Yes"
      <-> is_null (determine_qd_material float_of_str r) = false).
Proof.
  unfold determine_qd_material, qd_present_of. cbv zeta.
  destruct (py_in (color_architecture r) ["QD-LCD"; "QD-OLED"]); simpl.
  - repeat match goal with
           | |- context [if ?b then _ else _] => destruct b
           | |- context [match ?x with Ok _ => _ | Raise _ => _ end] => destruct x
           end;
      simpl; split; auto; split; reflexivity.
  - split; [auto |]. split; discriminate.
Qed.

(** The material column of the output: one of null, "InP", "CdSe" and
    "Unknown", and not null exactly on the rows whose [qd_present] is
    "Yes". *)
Theorem qd_material_of_output (tv_df : list TvRow) (spd_df : list SpdRow)
        (out : list Classified) :
  build_schema float_of_str to_numeric_str strict_setitem tv_df spd_df = Ok out ->
  Forall (fun c : Classified =>
            In (qd_material c) [PNone; PStr "InP"; PStr "CdSe"; PStr "Unknown"]
            /\ (qd_present c = "Yes" <-> is_null (qd_material c) = false))
         out.
Proof.
  intro H. apply build_schema_rows in H.
  apply (Forall2_right _ _ _ _ H). clear H.
  intros m c [zones [l [_ [_ ->]]]].
  cbn [classify qd_material qd_present row_of].
  apply determine_qd_material_values.
Qed.

(** The dimming zone count of the output is null exactly on the OLED
    rows and on the rows whose raw value is missing or is not a number;
    a count that is not null is the raw number, an int64, on an LCD
    row. *)
Theorem dimming_zone_count_of_output (tv_df : list TvRow) (spd_df : list SpdRow)
        (out : list Classified) :
  build_schema float_of_str to_numeric_str strict_setitem tv_df spd_df = Ok out ->
  Forall (fun c : Classified =>
            (dimming_zone_count_Int64 c = None
             <-> display_type c = PStr "OLED"
                 \/ PrimFloat.is_nan
                      (to_numeric_coerce to_numeric_str (dimming_zone_count c))
                    = true)
            /\ (forall z, dimming_zone_count_Int64 c = Some z ->
                  display_type c = PStr "LCD"
                  /\ float_integer_value
                       (to_numeric_coerce to_numeric_str (dimming_zone_count c))
                     = Some z
                  /\ (int64_min <= z <= int64_max)%Z))
         out.
Proof.
  intro H. apply build_schema_rows in H.
  apply (Forall2_right _ _ _ _ H). clear H.
  intros m c [zones [l [Hzones [_ ->]]]].
  set (r0 := {| staged_of := stage m zones; marketing_label := l |}).
  destruct (reclass_row_frame r0)
    as [Htv [_ [_ [_ [_ [_ [_ [_ [_ [_ [_ [_ [Hdisplay [_ [Hcount _]]]]]]]]]]]]]]].
  cbn [classify row_of].
  change (tv_of (reclass_row r0) = tv_of m) in Htv.
  change (display_type (reclass_row r0) = map_display_type (panel_type m))
    in Hdisplay.
  change (dimming_zone_count_Int64 (reclass_row r0)
          = if py_eq_str (map_display_type (panel_type m)) "OLED"
            then None else zones) in Hcount.
  rewrite Hcount, Hdisplay, Htv, map_display_type_cases.
  apply astype_Int64_Ok in Hzones.
  destruct (py_eq_str (panel_type m) "OLED"); simpl.
  - split; [split; auto | discriminate].
  - destruct Hzones as [[-> Hnan] | [z [-> [Hnan [Hvalue Hrange]]]]].
    + split; [split; auto | discriminate].
    + split.
      * split; [discriminate |]. intros [Holed | Hnan']; [discriminate | congruence].
      * intros z' Hz'. injection Hz' as <-. auto.
Qed.

End Run.

Lemma build_schema_passes_through_witness :
  build_schema decimal_reader decimal_reader true sample_tv sample_spd = Ok sample_output
  /\ Forall2 passes_through (merge sample_tv sample_spd) sample_output.
Proof.
  split; [reflexivity |].
  apply (build_schema_passes_through decimal_reader decimal_reader true
           sample_tv sample_spd).
  reflexivity.
Defined.

Lemma marketing_label_of_output_witness :
  build_schema decimal_reader decimal_reader true sample_tv sample_spd = Ok sample_output
  /\ Forall (fun c : Classified =>
               determine_marketing_label c = Ok (marketing_label c))
            sample_output.
Proof.
  split; [reflexivity |].
  apply (marketing_label_of_output decimal_reader decimal_reader true
           sample_tv sample_spd).
  reflexivity.
Defined.

Lemma reclassified_rows_of_output_witness :
  build_schema decimal_reader decimal_reader true sample_tv sample_spd = Ok sample_output
  /\ Forall (fun c : Classified =>
               (color_architecture c = PStr "KSF" ->
                ~ In (marketing_label c) qled_marketing)
               /\ (brand c = PStr "Hisense" -> color_architecture c <> PStr "KSF")
               /\ (spd_classification c = PStr "KSF" ->
                   color_architecture c = PStr "Pseudo QD" ->
                   py_in (brand c) ["Samsung"; "LG"; "Hisense"; "TCL"] = true))
            sample_output.
Proof.
  split; [reflexivity |].
  apply (reclassified_rows_of_output decimal_reader decimal_reader true
           sample_tv sample_spd).
  reflexivity.
Defined.

Lemma qd_material_of_output_witness :
  build_schema decimal_reader decimal_reader true sample_tv sample_spd = Ok sample_output
  /\ Forall (fun c : Classified =>
               In (qd_material c) [PNone; PStr "InP"; PStr "CdSe"; PStr "Unknown"]
               /\ (qd_present c = "Yes" <-> is_null (qd_material c) = false))
            sample_output.
Proof.
  split; [reflexivity |].
  apply (qd_material_of_output decimal_reader decimal_reader true sample_tv sample_spd).
  reflexivity.
Defined.

Lemma dimming_zone_count_of_output_witness :
  build_schema decimal_reader decimal_reader true sample_tv sample_spd = Ok sample_output
  /\ Forall (fun c : Classified =>
               (dimming_zone_count_Int64 c = None
                <-> display_type c = PStr "OLED"
                    \/ PrimFloat.is_nan
                         (to_numeric_coerce decimal_reader (dimming_zone_count c))
                       = true)
               /\ (forall z, dimming_zone_count_Int64 c = Some z ->
                     display_type c = PStr "LCD"
                     /\ float_integer_value
                          (to_numeric_coerce decimal_reader (dimming_zone_count c))
                        = Some z
                     /\ (int64_min <= z <= int64_max)%Z))
            sample_output.
Proof.
  split; [reflexivity |].
  apply (dimming_zone_count_of_output decimal_reader decimal_reader true
           sample_tv sample_spd).
  reflexivity.
Defined.

(** The sample run: the Samsung QLED set classified "KSF" comes out
    "Pseudo QD" with its label, the other "KSF" set stays. *)
Example sample_run :
  map (fun c : Classified =>
         (product_id c, color_architecture c, marketing_label c,
          dimming_zone_count_Int64 c))
      sample_output
  = [ (1%Z, PStr "Pseudo QD", "QLED", Some 0%Z);
      (2%Z, PStr "WOLED", "OLED", None);
      (3%Z, PStr "QD-LCD", "ULED", Some 1296%Z);
      (4%Z, NaN, "", None);
      (5%Z, PStr "KSF", "", None) ].
Proof. reflexivity. Qed.

(* ===================================================================== *)
(** ** The columns of the output *)
(* ===================================================================== *)

Lemma distinct_NoDup (l : list string) : distinct l = true -> NoDup l.
Proof.
  induction l as [| x rest IH]; simpl; intro H; constructor.
  - apply andb_prop in H. destruct H as [Hx _].
    intro Hin. apply isin_true in Hin. rewrite Hin in Hx. discriminate.
  - apply IH. apply andb_prop in H. tauto.
Qed.

Lemma kept_names_distinct (rename : string -> string) (keep : string -> bool)
      (names : list string) :
  NoDup (map rename names) -> NoDup (map rename (filter keep names)).
Proof.
  intro Hnames. induction names as [| c names IH]; simpl; [constructor |].
  simpl in Hnames. apply NoDup_cons_iff in Hnames. destruct Hnames as [Hc Hrest].
  destruct (keep c); simpl; [| now apply IH].
  apply NoDup_cons_iff. split; [| now apply IH].
  intro Hin. apply Hc. apply in_map_iff in Hin.
  destruct Hin as [c0 [Hc0 Hin]]. apply filter_In in Hin.
  apply in_map_iff. exists c0. tauto.
Qed.

Lemma output_columns_in (merged_columns : list string) (c : string) :
  In c (output_columns merged_columns)
  <-> exists c0, rename_column c0 = c /\ In c0 schema_cols /\ In c0 merged_columns.
Proof.
  unfold output_columns. rewrite in_map_iff.
  split; intros [c0 [Hc H]]; exists c0; split; auto.
  - apply filter_In in H. destruct H as [Hschema Hhas].
    apply isin_true in Hhas. auto.
  - apply filter_In. split; [tauto |]. apply isin_true. tauto.
Qed.

(** The header of the output, whatever columns the merged frame has:
    no name twice; only schema columns that the merged frame has, under
    their output names; neither "backlight_type" nor
    "backlight_type_schema" (they come out as "backlight_type_rtings"
    and "backlight_type_v2"); and never "num_peaks", although the join
    brings it in.  The columns [build_schema] assigns, "num_peaks"
    apart, are all there when the merged frame has them. *)
Theorem output_columns_header (merged_columns : list string) :
  NoDup (output_columns merged_columns)
  /\ (forall c, In c (output_columns merged_columns) ->
        exists c0, rename_column c0 = c /\ In c0 schema_cols /\ In c0 merged_columns)
  /\ ~ In "backlight_type" (output_columns merged_columns)
  /\ ~ In "backlight_type_schema" (output_columns merged_columns)
  /\ ~ In "num_peaks" (output_columns merged_columns)
  /\ (forall c, In c assigned_columns -> c <> "num_peaks" ->
        In c merged_columns ->
        In (rename_column c) (output_columns merged_columns)).
Proof.
  assert (Hnames : forall c, In c (output_columns merged_columns) ->
                             In c (map rename_column schema_cols)).
  { intros c Hc. apply output_columns_in in Hc.
    destruct Hc as [c0 [<- [Hc0 _]]]. exact (in_map rename_column _ _ Hc0). }
  assert (Hnot : forall c, has_column (map rename_column schema_cols) c = false ->
                           ~ In c (output_columns merged_columns)).
  { intros c Hc Hin. apply Hnames in Hin. apply isin_true in Hin.
    unfold has_column in Hc. congruence. }
  split; [| split; [| split; [| split; [| split]]]].
  - unfold output_columns. apply kept_names_distinct.
    apply distinct_NoDup. vm_compute. reflexivity.
  - intros c Hc. exact (proj1 (output_columns_in merged_columns c) Hc).
  - apply Hnot. vm_compute. reflexivity.
  - apply Hnot. vm_compute. reflexivity.
  - apply Hnot. vm_compute. reflexivity.
  - intros c Hassigned Hne Hmerged.
    apply (proj2 (output_columns_in merged_columns (rename_column c))).
    exists c. split; [reflexivity |]. split; [| exact Hmerged].
    unfold assigned_columns in Hassigned. simpl in Hassigned.
    repeat match goal with
           | H : _ \/ _ |- _ => destruct H as [<- | H]
           end;
      try contradiction; try (now elim Hne);
      apply isin_true; vm_compute; reflexivity.
Qed.

(* ===================================================================== *)
(** ** The scraper: record assembly *)
(* ===================================================================== *)

Module ScraperFacts.

Import Scraper.

Section DictFacts.

Context {K V : Type} (eqb : K -> K -> bool).
Hypothesis eqb_eq : forall a b, eqb a b = true <-> a = b.

Lemma eqb_same (a : K) : eqb a a = true.
Proof. now apply eqb_eq. Qed.

Lemma eqb_other (a b : K) : a <> b -> eqb a b = false.
Proof.
  intro H. destruct (eqb a b) eqn:E; [| reflexivity].
  apply eqb_eq in E. contradiction.
Qed.

Lemma lookup_assign_same (d : list (K * V)) (k : K) (v : V) :
  lookup eqb (assign eqb d k v) k = Some v.
Proof.
  induction d as [| [k' v'] rest IH]; simpl.
  - now rewrite eqb_same.
  - destruct (eqb k' k) eqn:E; simpl; now rewrite E.
Qed.

Lemma lookup_assign_other (d : list (K * V)) (k k' : K) (v : V) :
  k <> k' -> lookup eqb (assign eqb d k v) k' = lookup eqb d k'.
Proof.
  intro Hne. induction d as [| [k0 v0] rest IH]; simpl.
  - now rewrite (eqb_other k k' Hne).
  - destruct (eqb k0 k) eqn:E; simpl.
    + apply eqb_eq in E. subst k0. now rewrite (eqb_other k k' Hne).
    + now rewrite IH.
Qed.

Lemma lookup_none_keys (d : list (K * V)) (k : K) :
  lookup eqb d k = None <-> ~ In k (map fst d).
Proof.
  induction d as [| [k' v'] rest IH]; simpl.
  - tauto.
  - destruct (eqb k' k) eqn:E.
    + apply eqb_eq in E. split; [discriminate | intro H; elim H; auto].
    + rewrite IH. split.
      * intros H [Heq | Hin]; [| tauto].
        subst. rewrite eqb_same in E. discriminate.
      * tauto.
Qed.

Lemma lookup_some_keys (d : list (K * V)) (k : K) (v : V) :
  lookup eqb d k = Some v -> In k (map fst d).
Proof.
  induction d as [| [k' v'] rest IH]; simpl; [discriminate |].
  destruct (eqb k' k) eqn:E; intro H.
  - apply eqb_eq in E. now left.
  - right. now apply IH.
Qed.

Lemma keys_assign_present (d : list (K * V)) (k : K) (v v0 : V) :
  lookup eqb d k = Some v0 -> map fst (assign eqb d k v) = map fst d.
Proof.
  induction d as [| [k' v'] rest IH]; simpl; [discriminate |].
  destruct (eqb k' k); simpl; intro H; [reflexivity |].
  now rewrite IH.
Qed.

Lemma keys_assign_absent (d : list (K * V)) (k : K) (v : V) :
  lookup eqb d k = None -> assign eqb d k v = d ++ [(k, v)].
Proof.
  induction d as [| [k' v'] rest IH]; simpl; [reflexivity |].
  destruct (eqb k' k); [discriminate |]. intro H. now rewrite IH.
Qed.

Lemma keys_assign (d : list (K * V)) (k : K) (v : V) :
  forall k', In k' (map fst (assign eqb d k v)) <-> k' = k \/ In k' (map fst d).
Proof.
  intro k'. destruct (lookup eqb d k) as [v0 |] eqn:Hk.
  - rewrite (keys_assign_present d k v v0 Hk). split; [tauto |].
    intros [-> | H]; [| exact H]. exact (lookup_some_keys d k v0 Hk).
  - rewrite (keys_assign_absent d k v Hk), map_app, in_app_iff. simpl.
    split; [intros [H | [H | []]]; auto | intros [H | H]; auto].
Qed.

Lemma nodup_assign (d : list (K * V)) (k : K) (v : V) :
  NoDup (map fst d) -> NoDup (map fst (assign eqb d k v)).
Proof.
  intro Hd. destruct (lookup eqb d k) as [v0 |] eqn:Hk.
  - now rewrite (keys_assign_present d k v v0 Hk).
  - rewrite (keys_assign_absent d k v Hk), map_app. simpl.
    apply NoDup_app; [exact Hd | repeat constructor; auto |].
    intros a Ha [<- | []]. apply lookup_none_keys in Hk. contradiction.
Qed.

End DictFacts.

Lemma fold_left_keys {X : Type} (step : record -> X -> record)
      (xs : list X) (key : X -> Z) (recs : records) :
  map fst
      (fold_left
         (fun recs x =>
            match lookup Z.eqb recs (key x) with
            | None => recs
            | Some rec => assign Z.eqb recs (key x) (step rec x)
            end)
         xs recs)
  = map fst recs.
Proof.
  revert recs. induction xs as [| x xs IH]; intro recs; simpl; [reflexivity |].
  rewrite IH. destruct (lookup Z.eqb recs (key x)) as [rec |] eqn:Hx; [| reflexivity].
  exact (keys_assign_present Z.eqb recs (key x) _ rec Hx).
Qed.

(** Merging test results and ratings keeps the products as they are:
    no product is added, dropped or moved, whatever product ids the
    results carry. *)
Theorem merges_keep_products (recs : records) (test_results : list TestResult)
        (ratings : list Rating) :
  map fst (merge_test_results recs test_results) = map fst recs
  /\ map fst (merge_ratings recs ratings) = map fst recs.
Proof.
  split.
  - exact (fold_left_keys store_test_result test_results tr_product_id recs).
  - exact (fold_left_keys store_rating ratings r_product_id recs).
Qed.

Lemma build_product_records_snoc (products : list Product) (p : Product) :
  build_product_records (products ++ [p])
  = assign Z.eqb (build_product_records products) (id p) (product_record p).
Proof.
  unfold build_product_records. now rewrite fold_left_app.
Qed.

Lemma build_product_records_keys (products : list Product) :
  NoDup (map fst (build_product_records products))
  /\ forall pid, In pid (map fst (build_product_records products))
                 <-> In pid (map id products).
Proof.
  induction products as [| p products [IHnodup IHkeys]] using rev_ind.
  - split; [constructor | tauto].
  - rewrite build_product_records_snoc. split.
    + now apply (nodup_assign Z.eqb Z.eqb_eq).
    + intro pid. rewrite (keys_assign Z.eqb Z.eqb_eq), IHkeys, map_app, in_app_iff.
      simpl. intuition.
Qed.

(** With one product per id, [build_product_records] gives one record
    per product, in the order of the list, each the record of its
    product. *)
Theorem build_product_records_distinct (products : list Product) :
  NoDup (map id products) ->
  build_product_records products
  = map (fun p => (id p, product_record p)) products.
Proof.
  induction products as [| p products IH] using rev_ind; intro Hnodup.
  - reflexivity.
  - rewrite map_app in Hnodup. simpl in Hnodup.
    rewrite build_product_records_snoc, map_app. simpl.
    assert (Hps : NoDup (map id products)) by (eapply NoDup_app_remove_r; eauto).
    rewrite <- (IH Hps).
    apply (keys_assign_absent Z.eqb).
    apply (lookup_none_keys Z.eqb Z.eqb_eq).
    rewrite (proj2 (build_product_records_keys products)).
    intro Hin. apply NoDup_remove_2 in Hnodup.
    rewrite app_nil_r in Hnodup. contradiction.
Qed.

Lemma build_product_records_distinct_witness :
  NoDup (map id sample_products)
  /\ build_product_records sample_products
     = map (fun p => (id p, product_record p)) sample_products.
Proof.
  assert (Hnodup : NoDup (map id sample_products)).
  { simpl. repeat constructor; simpl; intuition discriminate. }
  split; [exact Hnodup |].
  exact (build_product_records_distinct sample_products Hnodup).
Defined.

(** When a product id occurs more than once, the record kept for it is
    the record of its last occurrence. *)
Theorem build_product_records_last (before after : list Product) (p : Product) :
  (forall q, In q after -> id q <> id p) ->
  lookup Z.eqb (build_product_records (before ++ p :: after)) (id p)
  = Some (product_record p).
Proof.
  induction after as [| q after IH] using rev_ind; intro Hafter.
  - rewrite build_product_records_snoc.
    apply (lookup_assign_same Z.eqb Z.eqb_eq).
  - replace (before ++ p :: after ++ [q]) with ((before ++ p :: after) ++ [q])
      by (rewrite <- app_assoc; reflexivity).
    rewrite build_product_records_snoc.
    rewrite (lookup_assign_other Z.eqb Z.eqb_eq).
    + apply IH. intros q' Hq'. apply Hafter. apply in_or_app. now left.
    + apply Hafter. apply in_or_app. right. now left.
Qed.

Lemma build_product_records_last_witness :
  lookup Z.eqb
         (build_product_records
            ([product 101 "LG C4" "LG" "lg/c4" []]
               ++ product 101 "LG C4 OLED" "LG" "lg/c4-oled" []
               :: [product 102 "TCL QM8" "TCL" "tcl/qm8" []]))
         101%Z
  = Some (product_record (product 101 "LG C4 OLED" "LG" "lg/c4-oled" [])).
Proof.
  apply (build_product_records_last
           [product 101 "LG C4" "LG" "lg/c4" []]
           [product 102 "TCL QM8" "TCL" "tcl/qm8" []]
           (product 101 "LG C4 OLED" "LG" "lg/c4-oled" [])).
  simpl. intros q [<- | []]. discriminate.
Defined.

Lemma column_set_same (rec : record) (c : string) (v : jval) :
  column (set_column rec c v) c = Some v.
Proof. exact (lookup_assign_same String.eqb String.eqb_eq rec c v). Qed.

Lemma column_set_other (rec : record) (c c' : string) (v : jval) :
  c <> c' -> column (set_column rec c v) c' = column rec c'.
Proof. exact (lookup_assign_other String.eqb String.eqb_eq rec c c' v). Qed.

Lemma lookup_value_in (ids : list (string * string)) (oid name : string) :
  lookup String.eqb ids oid = Some name -> In name (map snd ids).
Proof.
  induction ids as [| [k v] rest IH]; simpl; [discriminate |].
  destruct (String.eqb k oid); intro H.
  - injection H as ->. now left.
  - right. now apply IH.
Qed.

Lemma apart_from_kept_spec (col c : string) :
  apart_from_kept col = true -> In c kept_columns ->
  col <> c
  /\ String.append col "_thumb" <> c
  /\ String.append col "_score" <> c
  /\ String.append col "_display" <> c.
Proof.
  unfold apart_from_kept. intros H Hc.
  rewrite forallb_forall in H. specialize (H c Hc).
  repeat (apply andb_prop in H; destruct H as [H ?]).
  repeat match goal with
         | H : negb _ = true |- _ =>
             apply negb_true_iff in H; apply String.eqb_neq in H
         end.
  auto.
Qed.

Lemma test_column_apart (oid : string) :
  apart_from_kept (id_column TEST_IDS "test_" oid) = true.
Proof.
  unfold id_column.
  destruct (lookup String.eqb TEST_IDS oid) as [name |] eqn:Hname.
  - apply lookup_value_in in Hname.
    assert (Hall : forallb apart_from_kept (map snd TEST_IDS) = true)
      by (vm_compute; reflexivity).
    rewrite forallb_forall in Hall. now apply Hall.
  - reflexivity.
Qed.

Lemma usage_column_apart (oid : string) :
  forallb (fun c => negb (String.eqb (id_column USAGE_IDS "usage_" oid) c))
          kept_columns = true.
Proof.
  unfold id_column.
  destruct (lookup String.eqb USAGE_IDS oid) as [name |] eqn:Hname.
  - apply lookup_value_in in Hname.
    assert (Hall : forallb (fun name =>
                              forallb (fun c => negb (String.eqb name c)) kept_columns)
                           (map snd USAGE_IDS) = true)
      by (vm_compute; reflexivity).
    rewrite forallb_forall in Hall. now apply Hall.
  - reflexivity.
Qed.

Lemma store_test_result_kept (rec : record) (tr : TestResult) (c : string) :
  In c kept_columns -> column (store_test_result rec tr) c = column rec c.
Proof.
  intro Hc.
  destruct (apart_from_kept_spec _ c (test_column_apart (tr_original_id tr)) Hc)
    as [Hcol [Hthumb [Hscore Hdisplay]]].
  unfold store_test_result. cbv zeta.
  repeat match goal with
         | |- context [if ?b then _ else _] => destruct b
         end;
    repeat rewrite column_set_other by assumption; reflexivity.
Qed.

Lemma store_rating_kept (rec : record) (r : Rating) (c : string) :
  In c kept_columns -> column (store_rating rec r) c = column rec c.
Proof.
  intro Hc. pose proof (usage_column_apart (r_original_id r)) as H.
  rewrite forallb_forall in H. specialize (H c Hc).
  apply negb_true_iff in H. apply String.eqb_neq in H.
  unfold store_rating. cbv zeta. now apply column_set_other.
Qed.

Lemma build_product_records_stems (products : list Product) :
  stems_from products (build_product_records products).
Proof.
  induction products as [| p products IH] using rev_ind; intros pid rec Hrec.
  - discriminate.
  - rewrite build_product_records_snoc in Hrec.
    destruct (Z.eq_dec (id p) pid) as [<- | Hne].
    + rewrite (lookup_assign_same Z.eqb Z.eqb_eq) in Hrec. injection Hrec as <-.
      exists p. split; [apply in_or_app; right; now left | auto].
    + rewrite (lookup_assign_other Z.eqb Z.eqb_eq) in Hrec by assumption.
      destruct (IH pid rec Hrec) as [q [Hq Hrest]].
      exists q. split; [apply in_or_app; now left | exact Hrest].
Qed.

Lemma fold_left_stems {X : Type} (products : list Product)
      (step : record -> X -> record) (key : X -> Z) (xs : list X) :
  (forall rec x c, In c kept_columns -> column (step rec x) c = column rec c) ->
  forall recs,
    stems_from products recs ->
    stems_from products
      (fold_left
         (fun recs x =>
            match lookup Z.eqb recs (key x) with
            | None => recs
            | Some rec => assign Z.eqb recs (key x) (step rec x)
            end)
         xs recs).
Proof.
  intro Hstep. induction xs as [| x xs IH]; intros recs Hrecs; simpl; [exact Hrecs |].
  apply IH. destruct (lookup Z.eqb recs (key x)) as [rec0 |] eqn:Hx; [| exact Hrecs].
  intros pid rec Hrec.
  destruct (Z.eq_dec (key x) pid) as [<- | Hne].
  - rewrite (lookup_assign_same Z.eqb Z.eqb_eq) in Hrec. injection Hrec as <-.
    destruct (Hrecs _ _ Hx) as [p [Hp [Hid Hcols]]].
    exists p. split; [exact Hp |]. split; [exact Hid |].
    intros c Hc. rewrite (Hstep rec0 x c Hc). now apply Hcols.
  - rewrite (lookup_assign_other Z.eqb Z.eqb_eq) in Hrec by assumption.
    now apply Hrecs.
Qed.

(** The assembled records, whatever the three API responses hold: one
    record per distinct product id and none else; each record carries
    its key as "product_id"; and its identity columns, the two test
    bench columns apart, are those of a product of the list with that
    id - no test result and no rating overwrites them. *)
Theorem assemble_identity (products : list Product)
        (test_results : list TestResult) (ratings : list Rating) :
  NoDup (map fst (assemble products test_results ratings))
  /\ (forall pid, In pid (map fst (assemble products test_results ratings))
                  <-> In pid (map id products))
  /\ (forall pid rec,
        lookup Z.eqb (assemble products test_results ratings) pid = Some rec ->
        column rec "product_id" = Some (JInt pid)
        /\ exists p, In p products /\ id p = pid
                     /\ forall c, In c kept_columns ->
                                  column rec c = column (product_record p) c).
Proof.
  assert (Hkeys : map fst (assemble products test_results ratings)
                  = map fst (build_product_records products)).
  { unfold assemble, merge_ratings, merge_test_results.
    now rewrite (fold_left_keys store_rating),
                (fold_left_keys store_test_result). }
  rewrite Hkeys.
  destruct (build_product_records_keys products) as [Hnodup Hids].
  split; [exact Hnodup |]. split; [exact Hids |].
  intros pid rec Hrec.
  assert (Hstems : stems_from products (assemble products test_results ratings)).
  { unfold assemble, merge_ratings, merge_test_results.
    apply fold_left_stems; [exact store_rating_kept |].
    apply fold_left_stems; [exact store_test_result_kept |].
    apply build_product_records_stems. }
  destruct (Hstems pid rec Hrec) as [p [Hp [Hid Hcols]]].
  split; [| exists p; auto].
  rewrite (Hcols "product_id") by (simpl; auto).
  rewrite <- Hid. reflexivity.
Qed.

(** The sample responses assembled: the result for the unknown product
    999 is dropped, the second rating replaces the first, and the
    rating with the unknown id 77 goes to the column "usage_77". *)
Example assemble_sample :
  map (fun r : Z * record =>
         (fst r, column (snd r) "panel_type", column (snd r) "dimming_zone_count",
          column (snd r) "mixed_usage", column (snd r) "usage_77",
          column (snd r) "sizes_available"))
      (assemble sample_products sample_test_results sample_ratings)
  = [ (101%Z, Some (JStr "OLED"), None, Some (JFloat 9.5), None,
       Some (JStr "55 (OLED55C4); 65 (OLED65C4)"));
      (102%Z, None, Some (JInt 1296), None, Some JNull, Some (JStr "")) ].
Proof. reflexivity. Qed.

Lemma append_suffix_differs (s suffix : string) :
  suffix <> "" -> String.append s suffix <> s.
Proof.
  intro Hsuffix. induction s as [| c s IH]; simpl.
  - exact Hsuffix.
  - intro H. injection H as H. contradiction.
Qed.

Lemma append_suffixes_differ (s a b : string) :
  a <> b -> String.append s a <> String.append s b.
Proof.
  intro Hab. induction s as [| c s IH]; simpl.
  - exact Hab.
  - intro H. injection H as H. contradiction.
Qed.

Lemma fold_left_lookup {X : Type} (step : record -> X -> record) (key : X -> Z)
      (xs : list X) (recs : records) (pid : Z) :
  In pid (map fst recs) ->
  exists rec,
    lookup Z.eqb
           (fold_left
              (fun recs x =>
                 match lookup Z.eqb recs (key x) with
                 | None => recs
                 | Some rec => assign Z.eqb recs (key x) (step rec x)
                 end)
              xs recs) pid
    = Some rec.
Proof.
  intro Hin. rewrite <- (fold_left_keys step xs key recs) in Hin.
  destruct (lookup Z.eqb _ pid) as [rec |] eqn:Hrec; [eauto |].
  apply (lookup_none_keys Z.eqb Z.eqb_eq) in Hrec. contradiction.
Qed.

Lemma fold_left_column {X : Type} (step : record -> X -> record) (key : X -> Z)
      (c : string) (pid : Z) (xs : list X) :
  (forall x, In x xs -> key x = pid ->
             forall rec, column (step rec x) c = column rec c) ->
  forall (recs : records) (rec : record),
    lookup Z.eqb recs pid = Some rec ->
    exists rec',
      lookup Z.eqb
             (fold_left
                (fun recs x =>
                   match lookup Z.eqb recs (key x) with
                   | None => recs
                   | Some rec => assign Z.eqb recs (key x) (step rec x)
                   end)
                xs recs) pid
      = Some rec'
      /\ column rec' c = column rec c.
Proof.
  induction xs as [| x xs IH]; intros Hkeep recs rec Hrec; cbn [fold_left].
  - exists rec. auto.
  - assert (Hrest : forall y, In y xs -> key y = pid ->
                              forall rec, column (step rec y) c = column rec c)
      by (intros y Hy; apply Hkeep; now right).
    destruct (lookup Z.eqb recs (key x)) as [rec0 |] eqn:Hx.
    + destruct (Z.eq_dec (key x) pid) as [Hsame | Hother].
      * rewrite Hsame in Hx. rewrite Hrec in Hx. injection Hx as <-.
        destruct (IH Hrest (assign Z.eqb recs (key x) (step rec x)) (step rec x))
          as [rec' [Hrec' Hcolumn]].
        { rewrite Hsame. apply (lookup_assign_same Z.eqb Z.eqb_eq). }
        exists rec'. split; [exact Hrec' |].
        rewrite Hcolumn. apply Hkeep; [now left | exact Hsame].
      * apply (IH Hrest).
        now rewrite (lookup_assign_other Z.eqb Z.eqb_eq) by assumption.
    + now apply (IH Hrest).
Qed.

(** For every product and every rating column, the last rating that
    writes the column decides it: when no later rating of the list has
    the same product and the same column, the column holds this
    rating's score after the merge, null when the rating has none. *)
Theorem merge_ratings_last (recs : records) (earlier later : list Rating)
        (r : Rating) :
  In (r_product_id r) (map fst recs) ->
  (forall r', In r' later ->
              r_product_id r' = r_product_id r ->
              id_column USAGE_IDS "usage_" (r_original_id r')
              <> id_column USAGE_IDS "usage_" (r_original_id r)) ->
  exists rec,
    lookup Z.eqb (merge_ratings recs (earlier ++ r :: later)) (r_product_id r)
    = Some rec
    /\ column rec (id_column USAGE_IDS "usage_" (r_original_id r))
       = Some (get_or (r_score r) JNull).
Proof.
  intros Hin Hlater. unfold merge_ratings. rewrite fold_left_app. cbn [fold_left].
  destruct (fold_left_lookup store_rating r_product_id earlier recs _ Hin)
    as [rec0 Hrec0].
  rewrite Hrec0.
  destruct (fold_left_column store_rating r_product_id
              (id_column USAGE_IDS "usage_" (r_original_id r)) (r_product_id r) later)
    with (recs := assign Z.eqb (fold_left
                    (fun recs x =>
                       match lookup Z.eqb recs (r_product_id x) with
                       | None => recs
                       | Some rec => assign Z.eqb recs (r_product_id x) (store_rating rec x)
                       end) earlier recs) (r_product_id r) (store_rating rec0 r))
         (rec := store_rating rec0 r)
    as [rec' [Hrec' Hcolumn]].
  - intros r' Hr' Hpid rec. unfold store_rating. cbv zeta.
    apply column_set_other. now apply Hlater.
  - apply (lookup_assign_same Z.eqb Z.eqb_eq).
  - exists rec'. split; [exact Hrec' |].
    rewrite Hcolumn. unfold store_rating. cbv zeta. apply column_set_same.
Qed.

Lemma merge_ratings_last_witness :
  exists rec,
    lookup Z.eqb
           (merge_ratings (build_product_records sample_products)
                          (firstn 1 sample_ratings
                           ++ {| r_product_id := 101;
                                 r_original_id := "1";
                                 r_score := Some (JFloat 9.5) |}
                              :: [ {| r_product_id := 101;
                                      r_original_id := "10";
                                      r_score := Some (JFloat 8) |};
                                   {| r_product_id := 102;
                                      r_original_id := "1";
                                      r_score := Some (JFloat 7) |} ]))
           101%Z
    = Some rec
    /\ column rec "mixed_usage" = Some (JFloat 9.5).
Proof.
  apply (merge_ratings_last (build_product_records sample_products)
           (firstn 1 sample_ratings)
           [ {| r_product_id := 101; r_original_id := "10";
                r_score := Some (JFloat 8) |};
             {| r_product_id := 102; r_original_id := "1";
                r_score := Some (JFloat 7) |} ]
           {| r_product_id := 101; r_original_id := "1";
              r_score := Some (JFloat 9.5) |}).
  - simpl. auto.
  - intros r' [<- | [<- | []]] Hpid; [discriminate | discriminate Hpid].
Defined.

Lemma store_test_result_frame (rec : record) (tr : TestResult) (c : string) :
  ~ In c (written_columns tr) -> column (store_test_result rec tr) c = column rec c.
Proof.
  unfold written_columns, store_test_result. cbv zeta.
  repeat match goal with
         | |- context [if ?b then _ else _] => destruct b
         end;
    simpl; intro Hc;
    repeat rewrite column_set_other by (intro; apply Hc; auto);
    reflexivity.
Qed.

Lemma store_test_result_value (rec : record) (tr : TestResult) (c : string) :
  In c (written_columns tr) ->
  column (store_test_result rec tr) c
  = Some (let col_name := id_column TEST_IDS "test_" (tr_original_id tr) in
          if String.eqb c col_name then
            if String.eqb (kind tr) "picture" then get_or (asset_url tr) (JStr "")
            else if String.eqb (kind tr) "number" then get_or (value tr) JNull
            else if String.eqb (kind tr) "word" then get_or (value tr) (JStr "")
            else if truthy (get_or (rendered_value tr) JNull)
                 then get_or (rendered_value tr) JNull
                 else get_or (value tr) (JStr "")
          else if String.eqb c (String.append col_name "_thumb")
               then get_or (asset_thumb_url tr) JNull
          else if String.eqb c (String.append col_name "_score")
               then get_or (score tr) JNull
          else get_or (rendered_value tr) (JStr "")).
Proof.
  cbv zeta. set (col := id_column TEST_IDS "test_" (tr_original_id tr)).
  assert (Hthumb : String.append col "_thumb" <> col)
    by (apply append_suffix_differs; discriminate).
  assert (Hscore : String.append col "_score" <> col)
    by (apply append_suffix_differs; discriminate).
  assert (Hdisplay : String.append col "_display" <> col)
    by (apply append_suffix_differs; discriminate).
  assert (Hboth : String.append col "_display" <> String.append col "_score")
    by (apply append_suffixes_differ; discriminate).
  assert (Hdisplay_thumb : String.append col "_display" <> String.append col "_thumb")
    by (apply append_suffixes_differ; discriminate).
  assert (Hscore_thumb : String.append col "_score" <> String.append col "_thumb")
    by (apply append_suffixes_differ; discriminate).
  unfold written_columns, store_test_result. fold col. cbv zeta.
  destruct (String.eqb (kind tr) "picture") eqn:Hpicture.
  - destruct (truthy _).
    + intros [<- | [<- | []]].
      * rewrite String.eqb_refl.
        rewrite column_set_other by assumption. apply column_set_same.
      * apply String.eqb_neq in Hthumb. rewrite Hthumb, String.eqb_refl.
        apply column_set_same.
    + intros [<- | []]. rewrite String.eqb_refl. apply column_set_same.
  - destruct (String.eqb (kind tr) "number") eqn:Hnumber.
    + intros [<- | [<- | [<- | []]]].
      * rewrite String.eqb_refl.
        rewrite !column_set_other by assumption. apply column_set_same.
      * apply String.eqb_neq in Hscore, Hscore_thumb.
        rewrite Hscore, Hscore_thumb, String.eqb_refl.
        rewrite column_set_other by assumption. apply column_set_same.
      * apply String.eqb_neq in Hdisplay, Hdisplay_thumb, Hboth.
        rewrite Hdisplay, Hdisplay_thumb, Hboth.
        apply column_set_same.
    + intros [<- | []]. rewrite String.eqb_refl.
      destruct (String.eqb (kind tr) "word"); apply column_set_same.
Qed.

(** For every product and every column a test result writes, the last
    result that writes the column decides it: when no later result of
    the list has the same product and writes the column, the column
    holds after the merge what this result stored.  The column of the
    test's id holds the asset URL of a picture, the value of a number
    or a word, and for any other kind the rendered value unless that is
    empty; the columns beside it hold the thumbnail of a picture that
    has one, and the score and the rendered value of a number. *)
Theorem merge_test_results_last (recs : records) (earlier later : list TestResult)
        (tr : TestResult) (c : string) :
  In (tr_product_id tr) (map fst recs) ->
  In c (written_columns tr) ->
  (forall tr', In tr' later ->
               tr_product_id tr' = tr_product_id tr ->
               ~ In c (written_columns tr')) ->
  exists rec,
    lookup Z.eqb (merge_test_results recs (earlier ++ tr :: later))
           (tr_product_id tr)
    = Some rec
    /\ column rec c
       = Some (let col_name := id_column TEST_IDS "test_" (tr_original_id tr) in
               if String.eqb c col_name then
                 if String.eqb (kind tr) "picture"
                 then get_or (asset_url tr) (JStr "")
                 else if String.eqb (kind tr) "number"
                      then get_or (value tr) JNull
                      else if String.eqb (kind tr) "word"
                           then get_or (value tr) (JStr "")
                           else if truthy (get_or (rendered_value tr) JNull)
                                then get_or (rendered_value tr) JNull
                                else get_or (value tr) (JStr "")
               else if String.eqb c (String.append col_name "_thumb")
                    then get_or (asset_thumb_url tr) JNull
               else if String.eqb c (String.append col_name "_score")
                    then get_or (score tr) JNull
               else get_or (rendered_value tr) (JStr "")).
Proof.
  intros Hin Hc Hlater. unfold merge_test_results.
  rewrite fold_left_app. cbn [fold_left].
  destruct (fold_left_lookup store_test_result tr_product_id earlier recs _ Hin)
    as [rec0 Hrec0].
  rewrite Hrec0.
  destruct (fold_left_column store_test_result tr_product_id c
              (tr_product_id tr) later)
    with (recs := assign Z.eqb (fold_left
                    (fun recs x =>
                       match lookup Z.eqb recs (tr_product_id x) with
                       | None => recs
                       | Some rec =>
                           assign Z.eqb recs (tr_product_id x) (store_test_result rec x)
                       end) earlier recs) (tr_product_id tr) (store_test_result rec0 tr))
         (rec := store_test_result rec0 tr)
    as [rec' [Hrec' Hcolumn]].
  - intros tr' Htr' Hpid rec. apply store_test_result_frame. now apply Hlater.
  - apply (lookup_assign_same Z.eqb Z.eqb_eq).
  - exists rec'. split; [exact Hrec' |].
    rewrite Hcolumn. now apply store_test_result_value.
Qed.

Lemma merge_test_results_last_witness :
  exists rec,
    lookup Z.eqb
           (merge_test_results (build_product_records sample_products)
                               (firstn 1 sample_test_results
                                ++ {| tr_product_id := 102;
                                      tr_original_id := "16981";
                                      kind := "number";
                                      asset_url := None;
                                      asset_thumb_url := None;
                                      value := Some (JInt 1296);
                                      score := Some (JFloat 8.5);
                                      rendered_value := Some (JStr "1296") |}
                                   :: [ {| tr_product_id := 102;
                                           tr_original_id := "219";
                                           kind := "word";
                                           asset_url := None;
                                           asset_thumb_url := None;
                                           value := Some (JStr "120 Hz");
                                           score := None;
                                           rendered_value := None |};
                                        {| tr_product_id := 101;
                                           tr_original_id := "16981";
                                           kind := "number";
                                           asset_url := None;
                                           asset_thumb_url := None;
                                           value := Some (JInt 8294400);
                                           score := Some (JFloat 10);
                                           rendered_value := None |} ]))
           102%Z
    = Some rec
    /\ column rec "dimming_zone_count_score" = Some (JFloat 8.5).
Proof.
  apply (merge_test_results_last (build_product_records sample_products)
           (firstn 1 sample_test_results)
           [ {| tr_product_id := 102; tr_original_id := "219"; kind := "word";
                asset_url := None; asset_thumb_url := None;
                value := Some (JStr "120 Hz"); score := None;
                rendered_value := None |};
             {| tr_product_id := 101; tr_original_id := "16981"; kind := "number";
                asset_url := None; asset_thumb_url := None;
                value := Some (JInt 8294400); score := Some (JFloat 10);
                rendered_value := None |} ]
           {| tr_product_id := 102; tr_original_id := "16981"; kind := "number";
              asset_url := None; asset_thumb_url := None;
              value := Some (JInt 1296); score := Some (JFloat 8.5);
              rendered_value := Some (JStr "1296") |}
           "dimming_zone_count_score").
  - simpl. auto.
  - simpl. auto.
  - intros tr' [<- | [<- | []]] Hpid.
    + simpl. intros [H | []]. discriminate H.
    + discriminate Hpid.
Defined.

(* --------------------------------------------------------------------- *)
(** *** The file name of an SPD image *)

Lemma contains_slash_cons (c : ascii) (s : string) :
  str_contains "/" (String c s) = Ascii.eqb c "/" || str_contains "/" s.
Proof.
  change (str_contains "/" (String c s))
    with (if (if Ascii.ascii_dec "/" c then String.prefix "" s else false)
          then true else str_contains "/" s).
  destruct (Ascii.ascii_dec "/" c) as [<- | Hne].
  - destruct s; reflexivity.
  - assert (Hc : Ascii.eqb c "/" = false).
    { apply Ascii.eqb_neq. congruence. }
    now rewrite Hc.
Qed.

Lemma contains_slash_append (a b : string) :
  str_contains "/" (String.append a b)
  = str_contains "/" a || str_contains "/" b.
Proof.
  induction a as [| c a IH].
  - destruct b; reflexivity.
  - cbn [String.append]. rewrite !contains_slash_cons, IH.
    now rewrite orb_assoc.
Qed.

Lemma replace_slash_clean (s : string) :
  str_contains "/" (replace_slash s) = false.
Proof.
  induction s as [| c s IH]; [reflexivity |].
  cbn [replace_slash]. rewrite contains_slash_cons, IH, orb_false_r.
  destruct (Ascii.eqb c "/") eqn:Hc; [reflexivity | exact Hc].
Qed.

(** The file name of an SPD image never holds a slash, whatever the
    product's URL part is, so the file is written in the output
    directory itself; the name is as long as the URL part plus the
    eight characters of "_spd.jpg". *)
Theorem spd_filename_flat (url_part : string) :
  str_contains "/" (spd_filename url_part) = false
  /\ String.length (spd_filename url_part) = (String.length url_part + 8)%nat.
Proof.
  unfold spd_filename. cbv zeta. split.
  - rewrite contains_slash_append, replace_slash_clean. reflexivity.
  - induction url_part as [| c s IH]; cbn [replace_slash String.append String.length];
      [reflexivity | now rewrite IH].
Qed.

Example spd_filename_sample :
  spd_filename "lg/c4-oled" = "lg-c4-oled_spd.jpg".
Proof. reflexivity. Qed.

(* --------------------------------------------------------------------- *)
(** *** The column order of the scraper's files *)

Lemma mem_true (c : string) (l : list string) : mem c l = true <-> In c l.
Proof. exact (isin_true c l). Qed.

Lemma mem_false (c : string) (l : list string) : mem c l = false <-> ~ In c l.
Proof.
  rewrite <- mem_true. destruct (mem c l); split; congruence.
Qed.

Lemma insert_sorted_perm (x : string) (l : list string) :
  Permutation (insert_sorted x l) (x :: l).
Proof.
  induction l as [| y rest IH]; simpl; [apply Permutation_refl |].
  destruct (String.leb x y); [apply Permutation_refl |].
  apply perm_trans with (y :: x :: rest); [now apply perm_skip | apply perm_swap].
Qed.

Lemma sorted_perm (l : list string) : Permutation (sorted l) l.
Proof.
  induction l as [| x rest IH]; simpl; [apply perm_nil |].
  apply perm_trans with (x :: sorted rest);
    [apply insert_sorted_perm | now apply perm_skip].
Qed.

Lemma insert_sorted_ascending (x : string) (l : list string) :
  Sorted (fun a b => String.leb a b = true) l ->
  Sorted (fun a b => String.leb a b = true) (insert_sorted x l).
Proof.
  induction 1 as [| y rest Hrest IH Hhd]; simpl.
  - repeat constructor.
  - destruct (String.leb x y) eqn:Hxy.
    + constructor; [now constructor | now constructor].
    + constructor; [exact IH |].
      assert (Hyx : String.leb y x = true).
      { destruct (String.leb_total x y) as [H | H]; congruence. }
      destruct rest as [| z rest]; simpl; [now constructor |].
      destruct (String.leb x z); constructor; auto.
      now inversion Hhd.
Qed.

(** [sorted] returns the names in ascending order. *)
Lemma sorted_ascending (l : list string) :
  Sorted (fun a b => String.leb a b = true) (sorted l).
Proof.
  induction l as [| x rest IH]; simpl; [constructor |].
  now apply insert_sorted_ascending.
Qed.

Lemma sorted_in (l : list string) (x : string) : In x (sorted l) <-> In x l.
Proof.
  split; apply Permutation_in;
    [apply sorted_perm | apply Permutation_sym, sorted_perm].
Qed.

Lemma sorted_nodup (l : list string) : NoDup l -> NoDup (sorted l).
Proof. apply Permutation_NoDup, Permutation_sym, sorted_perm. Qed.

Lemma front_then_rest (front l : list string) :
  NoDup front -> incl front l -> NoDup l ->
  Permutation (front ++ filter (fun c => negb (mem c front)) l) l.
Proof.
  intros Hfront Hincl Hl. apply NoDup_Permutation; [| exact Hl |].
  - apply NoDup_app; [exact Hfront | now apply NoDup_filter |].
    intros x Hx Hin. apply filter_In in Hin. destruct Hin as [_ Hno].
    apply negb_true_iff, mem_false in Hno. contradiction.
  - intro x. rewrite in_app_iff, filter_In, negb_true_iff, mem_false.
    split.
    + intros [H | [H _]]; [now apply Hincl | exact H].
    + intro H. destruct (in_dec string_dec x front); auto.
Qed.

(** [save_outputs] only reorders the columns: when the frame has no
    column name twice, the header written is a permutation of the
    frame's columns, so no column is lost and none is written twice;
    and "product_id", when the frame has it, is the first column. *)
Theorem ordered_cols_permutation (columns : list string) :
  NoDup columns ->
  Permutation (ordered_cols columns) columns
  /\ (In "product_id" columns ->
      exists rest, ordered_cols columns = "product_id" :: rest).
Proof.
  intro Hcolumns. unfold ordered_cols.
  set (usage_cols := sorted (filter (fun c => mem c (map snd USAGE_IDS)) columns)).
  set (known := identity_cols ++ panel_cols ++ usage_cols
                ++ ["scraped_at"; "image_url"; "reviewed_sku_id"]).
  set (other_cols := sorted (filter (fun c => negb (mem c known)) columns)).
  cbv zeta.
  assert (Husage : forall x, In x usage_cols ->
                             In x columns /\ mem x (map snd USAGE_IDS) = true).
  { intros x Hx. apply sorted_in, filter_In in Hx. exact Hx. }
  assert (Hother : forall x, In x other_cols -> ~ In x known).
  { intros x Hx. apply sorted_in, filter_In in Hx. destruct Hx as [_ Hx].
    now apply negb_true_iff, mem_false in Hx. }
  assert (Hfixed : NoDup (identity_cols ++ panel_cols))
    by (apply distinct_NoDup; vm_compute; reflexivity).
  assert (Hfixed_usage : forall x, In x (identity_cols ++ panel_cols ++ ["scraped_at"]) ->
                                   mem x (map snd USAGE_IDS) = false).
  { assert (Hall : forallb (fun x => negb (mem x (map snd USAGE_IDS)))
                           (identity_cols ++ panel_cols ++ ["scraped_at"]) = true)
      by (vm_compute; reflexivity).
    rewrite forallb_forall in Hall. intros x Hx.
    now apply negb_true_iff, Hall. }
  assert (Hscraped : ~ In "scraped_at" (identity_cols ++ panel_cols)).
  { apply mem_false. vm_compute. reflexivity. }
  assert (Hknown : forall x, In x identity_cols \/ In x panel_cols
                             \/ In x usage_cols \/ x = "scraped_at" ->
                             In x known).
  { intros x Hx. unfold known. rewrite !in_app_iff. simpl. intuition. }
  assert (Hnodup : NoDup (identity_cols ++ panel_cols ++ usage_cols
                          ++ other_cols ++ ["scraped_at"])).
  { rewrite app_assoc. apply NoDup_app; [exact Hfixed | |].
    - apply NoDup_app; [| apply NoDup_app |].
      + apply sorted_nodup. now apply NoDup_filter.
      + apply sorted_nodup. now apply NoDup_filter.
      + repeat constructor; auto.
      + intros x Hx [<- | []]. apply (Hother _ Hx). apply Hknown. auto.
      + intros x Hx Hin. apply in_app_iff in Hin. destruct Hin as [Hin | [<- | []]].
        * apply (Hother _ Hin). apply Hknown. auto.
        * apply Husage in Hx. destruct Hx as [_ Hx].
          rewrite (Hfixed_usage "scraped_at") in Hx; [discriminate |].
          rewrite !in_app_iff. simpl. auto.
    - intros x Hx Hin. rewrite !in_app_iff in Hin.
      destruct Hin as [Hin | [Hin | [<- | []]]].
      + apply Husage in Hin. destruct Hin as [_ Hin].
        rewrite (Hfixed_usage x) in Hin; [discriminate |].
        rewrite app_assoc. apply in_or_app. now left.
      + apply (Hother _ Hin). apply Hknown.
        apply in_app_iff in Hx. tauto.
      + contradiction. }
  split.
  - apply front_then_rest; [now apply NoDup_filter | | exact Hcolumns].
    intros x Hx. apply filter_In in Hx. destruct Hx as [_ Hx].
    now apply mem_true.
  - intro Hpid. apply mem_true in Hpid.
    unfold identity_cols. cbn [app filter]. rewrite Hpid. cbn [app]. eauto.
Qed.

Lemma ordered_cols_permutation_witness :
  NoDup sample_columns
  /\ Permutation (ordered_cols sample_columns) sample_columns
  /\ ordered_cols sample_columns
     = [ "product_id"; "fullname"; "brand"; "url_part"; "sku_count";
         "panel_type"; "dimming_zone_count"; "gaming"; "mixed_usage";
         "dimming_zone_count_score"; "spd_image"; "scraped_at"; "image_url" ].
Proof.
  assert (Hnodup : NoDup sample_columns)
    by (apply distinct_NoDup; vm_compute; reflexivity).
  split; [exact Hnodup |]. split.
  - exact (proj1 (ordered_cols_permutation sample_columns Hnodup)).
  - vm_compute. reflexivity.
Defined.

End ScraperFacts.
